(** * bank_API: the account / transaction consistency core

    A shallow embedding of [bank_API/models.py] and [bank_API/views.py].

    Modelling conventions.
    - A [FloatField] value is an exact rational ([Q]); the comparisons the
      code performs ([<], [<=], [>]) are the boolean comparisons on [Q].
      Rounding, infinities and NaN are outside the model: its sums and
      differences are those of the code where binary64 does not round, on
      integers of magnitude at most 2^53 ([exact_integer]).  A theorem
      that states a balance as a sum carries that condition, and
      [binary64_Transaction_save] gives the arithmetic of the code itself
      on one balance, for the inputs outside it.
    - A [CharField] value is a [string]; a [DateTimeField] is a [nat] read
      from the clock of the request ([now]).
    - The database is an explicit value [Db]: the two tables, in insertion
      order, their primary-key sequences, and a journal of the row writes
      that were executed.  Every method that touches the database lives in
      the monad [M], which threads the database and may raise: a raised
      exception keeps the writes made before it (autocommit).
    - A model instance is a record whose [pk] is [None] until it is saved.
      A [Transaction] instance holds its related [Account] object, the
      stored row holds the primary key of that account.
    - A form ([AccountForm.t], [TransactionForm.t]) holds the submitted
      fields after parsing, its number parsed; [AccountPost.t] is the
      account creation form before parsing, where the balance may be
      missing.  The length of a string is its length in bytes.
    - [urlpatterns] calls the view of a route whatever the URL argument;
      [routable] says which arguments the converters of urls.py accept. *)

From Stdlib Require Import QArith Lqa String Ascii List Bool Arith Lia Sorted.
From Stdlib Require Import PrimFloat FloatOps SpecFloat.
Import ListNotations.

Set Implicit Arguments.

(** ** Exceptions and the database monad *)

Inductive Exception : Type :=
| ValidationError (message : string)
| ValueError (message : string)
| TypeError (message : string)
| IntegrityError
| Http404.

Inductive result (A : Type) : Type :=
| Ok (a : A)
| Raise (e : Exception).

Arguments Raise {A} e.

(** Python's [x < y] on two numbers. *)
Definition Qlt_bool (x y : Q) : bool := negb (Qle_bool y x).

(** ** The model classes: fields *)

Module Account.

Definition SAVINGS : string := "Savings".
Definition CHECKING : string := "Checking".
Definition ACCOUNT_TYPE_CHOICES : list string := [SAVINGS; CHECKING].

Record t : Type := mk {
  pk : option nat;
  account_number : string;
  balance : Q;
  customer_name : string;
  account_type : string;
  account_creation : nat;
  last_update : nat
}.

Definition set_balance (self : t) (b : Q) : t :=
  mk (pk self) (account_number self) b (customer_name self)
     (account_type self) (account_creation self) (last_update self).

(** The column writes of an INSERT: the key and both automatic dates. *)
Definition inserted (self : t) (k now : nat) : t :=
  mk (Some k) (account_number self) (balance self) (customer_name self)
     (account_type self) now now.

(** The column writes of an UPDATE: [auto_now] re-stamps [last_update]. *)
Definition updated (self : t) (now : nat) : t :=
  mk (pk self) (account_number self) (balance self) (customer_name self)
     (account_type self) (account_creation self) now.

Definition has_pk (k : nat) (row : t) : bool :=
  match pk row with
  | Some k' => Nat.eqb k' k
  | None => false
  end.

End Account.

Module Transaction.

Definition DEPOSIT : string := "Deposit".
Definition WITHDRAW : string := "Withdraw".
Definition TRANSACTION_TYPE_CHOICES : list string := [DEPOSIT; WITHDRAW].

(** [A] is what the foreign key [account_number] holds: the related
    [Account.t] object on an instance, the account's primary key on a
    stored row. *)
Record t (A : Type) : Type := mk {
  pk : option nat;
  transaction_id : string;
  account_number : A;
  amount : Q;
  transaction_type : string;
  timestamp : nat;
  description : string;
  status : string
}.

Definition set_account (A B : Type) (self : t A) (a : B) : t B :=
  mk (pk self) (transaction_id self) a (amount self)
     (transaction_type self) (timestamp self) (description self)
     (status self).

Definition inserted (A : Type) (self : t A) (k now : nat) : t A :=
  mk (Some k) (transaction_id self) (account_number self) (amount self)
     (transaction_type self) now (description self) (status self).

Definition has_pk (A : Type) (k : nat) (row : t A) : bool :=
  match pk row with
  | Some k' => Nat.eqb k' k
  | None => false
  end.

End Transaction.

Definition pk_eqb (a b : option nat) : bool :=
  match a, b with
  | Some x, Some y => Nat.eqb x y
  | None, None => true
  | _, _ => false
  end.

(** ** The database *)

Inductive Table : Type := AccountTable | TransactionTable.
Inductive Statement : Type := INSERT | UPDATE | DELETE.

(** One executed row write: the table, the statement and the row's key. *)
Record Write : Type := mkWrite {
  w_table : Table;
  w_stmt : Statement;
  w_pk : nat
}.

Record Db : Type := mkDb {
  accounts : list Account.t;
  transactions : list (Transaction.t nat);
  account_seq : nat;
  transaction_seq : nat;
  journal : list Write
}.

Definition empty_db : Db := mkDb [] [] 1 1 [].

Definition M (A : Type) : Type := Db -> result A * Db.

Definition ret (A : Type) (a : A) : M A := fun db => (Ok a, db).

Definition raise (A : Type) (e : Exception) : M A := fun db => (Raise e, db).

Arguments raise {A} e.

Definition bind (A B : Type) (m : M A) (f : A -> M B) : M B :=
  fun db =>
    match m db with
    | (Ok a, db') => f a db'
    | (Raise e, db') => (Raise e, db')
    end.

Declare Scope db_scope.
Delimit Scope db_scope with db.
Notation "x <- m ;; k" := (bind m (fun x => k))
  (at level 61, m at next level, right associativity) : db_scope.
Notation "m ;;; k" := (bind m (fun _ => k))
  (at level 61, right associativity) : db_scope.

(** *** Queries *)

Definition Account_by_pk (db : Db) (k : nat) : option Account.t :=
  find (Account.has_pk k) (accounts db).

Definition Account_by_number (db : Db) (n : string) : option Account.t :=
  find (fun row => String.eqb (Account.account_number row) n) (accounts db).

Definition Transaction_by_pk (db : Db) (k : nat) : option (Transaction.t nat) :=
  find (Transaction.has_pk k) (transactions db).

Definition Transaction_by_id (db : Db) (i : string)
  : option (Transaction.t nat) :=
  find (fun row => String.eqb (Transaction.transaction_id row) i)
       (transactions db).

(** [get_object_or_404]. *)
Definition get_object_or_404 (A : Type) (o : option A) : M A :=
  match o with
  | Some obj => ret obj
  | None => raise Http404
  end.

(** Another row already carries the unique [account_number] of [self]. *)
Definition Account_number_taken (db : Db) (self_pk : option nat) (n : string)
  : bool :=
  existsb (fun row => String.eqb (Account.account_number row) n
                      && negb (pk_eqb (Account.pk row) self_pk))
          (accounts db).

Definition Transaction_id_taken (db : Db) (self_pk : option nat) (i : string)
  : bool :=
  existsb (fun row => String.eqb (Transaction.transaction_id row) i
                      && negb (pk_eqb (Transaction.pk row) self_pk))
          (transactions db).

(** *** [models.Model.save]: the row write behind [super().save()] *)

Definition replace_account (k : nat) (row : Account.t) (l : list Account.t)
  : list Account.t :=
  map (fun r => if Account.has_pk k r then row else r) l.

Definition replace_transaction (k : nat) (row : Transaction.t nat)
  (l : list (Transaction.t nat)) : list (Transaction.t nat) :=
  map (fun r => if Transaction.has_pk k r then row else r) l.

(** An instance with a key is written by UPDATE when its row exists and by
    INSERT otherwise; an instance without a key is written by INSERT under
    the next key of the sequence.  A unique violation raises
    [IntegrityError] and writes nothing. *)
Definition Model_save_Account (now : nat) (self : Account.t) : M Account.t :=
  fun db =>
    if Account_number_taken db (Account.pk self) (Account.account_number self)
    then (Raise IntegrityError, db)
    else
      match Account.pk self with
      | Some k =>
          if existsb (Account.has_pk k) (accounts db)
          then
            let row := Account.updated self now in
            (Ok row,
             mkDb (replace_account k row (accounts db)) (transactions db)
                  (account_seq db) (transaction_seq db)
                  (journal db ++ [mkWrite AccountTable UPDATE k]))
          else
            let row := Account.inserted self k now in
            (Ok row,
             mkDb (accounts db ++ [row]) (transactions db)
                  (Nat.max (account_seq db) (S k)) (transaction_seq db)
                  (journal db ++ [mkWrite AccountTable INSERT k]))
      | None =>
          let k := account_seq db in
          let row := Account.inserted self k now in
          (Ok row,
           mkDb (accounts db ++ [row]) (transactions db)
                (S k) (transaction_seq db)
                (journal db ++ [mkWrite AccountTable INSERT k]))
      end.

(** The stored row of a transaction instance whose account has key [a]. *)
Definition Transaction_row (self : Transaction.t Account.t) (a : nat)
  : Transaction.t nat :=
  Transaction.set_account self a.

(** Saving a transaction whose related account was never saved is refused
    by the ORM; a key that matches no account row violates the foreign
    key. *)
Definition Model_save_Transaction (now : nat) (self : Transaction.t Account.t)
  : M (Transaction.t Account.t) :=
  fun db =>
    match Account.pk (Transaction.account_number self) with
    | None =>
        (Raise (ValueError "save() prohibited to prevent data loss due to unsaved related object 'account_number'."), db)
    | Some a =>
        if Transaction_id_taken db (Transaction.pk self)
                                (Transaction.transaction_id self)
           || negb (existsb (Account.has_pk a) (accounts db))
        then (Raise IntegrityError, db)
        else
          match Transaction.pk self with
          | Some k =>
              if existsb (Transaction.has_pk k) (transactions db)
              then
                (Ok self,
                 mkDb (accounts db)
                      (replace_transaction k (Transaction_row self a)
                                           (transactions db))
                      (account_seq db) (transaction_seq db)
                      (journal db ++ [mkWrite TransactionTable UPDATE k]))
              else
                let obj := Transaction.inserted self k now in
                (Ok obj,
                 mkDb (accounts db)
                      (transactions db ++ [Transaction_row obj a])
                      (account_seq db)
                      (Nat.max (transaction_seq db) (S k))
                      (journal db ++ [mkWrite TransactionTable INSERT k]))
          | None =>
              let k := transaction_seq db in
              let obj := Transaction.inserted self k now in
              (Ok obj,
               mkDb (accounts db)
                    (transactions db ++ [Transaction_row obj a])
                    (account_seq db) (S k)
                    (journal db ++ [mkWrite TransactionTable INSERT k]))
          end
    end.

(** *** [models.Model.delete] *)

Definition Model_delete_Transaction (self : Transaction.t nat) : M unit :=
  fun db =>
    match Transaction.pk self with
    | None => (Raise (ValueError "Transaction object can't be deleted because its id attribute is set to None."), db)
    | Some k =>
        (Ok tt,
         mkDb (accounts db)
              (filter (fun r => negb (Transaction.has_pk k r))
                      (transactions db))
              (account_seq db) (transaction_seq db)
              (journal db ++ [mkWrite TransactionTable DELETE k]))
    end.

Definition pk_or_0 (o : option nat) : nat :=
  match o with Some k => k | None => 0 end.

(** [on_delete=models.CASCADE]: the transactions that reference the account
    are deleted first, then the account row. *)
Definition Model_delete_Account (self : Account.t) : M unit :=
  fun db =>
    match Account.pk self with
    | None => (Raise (ValueError "Account object can't be deleted because its id attribute is set to None."), db)
    | Some k =>
        let owned r := Nat.eqb (Transaction.account_number r) k in
        (Ok tt,
         mkDb (filter (fun r => negb (Account.has_pk k r)) (accounts db))
              (filter (fun r => negb (owned r)) (transactions db))
              (account_seq db) (transaction_seq db)
              (journal db
                 ++ map (fun r => mkWrite TransactionTable DELETE
                                          (pk_or_0 (Transaction.pk r)))
                        (filter owned (transactions db))
                 ++ [mkWrite AccountTable DELETE k]))
    end.

(** ** models.py *)

Local Open Scope db_scope.

(** [Account.clean]: only a new account must open with a positive balance. *)
Definition Account_clean (self : Account.t) : result unit :=
  match Account.pk self with
  | None =>
      if Qle_bool (Account.balance self) 0
      then Raise (ValidationError
                    "Balance must be greater than 0 for new accounts")
      else Ok tt
  | Some _ => Ok tt
  end.

(** [Account.save]. *)
Definition Account_save (now : nat) (self : Account.t) : M Account.t :=
  if Qlt_bool (Account.balance self) 0
  then raise (ValidationError "Balance can not be negative")
  else Model_save_Account now self.

(** The in-place arithmetic of [Account.update_balance], before its save. *)
Definition apply_transaction (self : Account.t)
  (transaction : Transaction.t Account.t) : Account.t :=
  if String.eqb (Transaction.transaction_type transaction) "Deposit"
  then Account.set_balance self
         (Account.balance self + Transaction.amount transaction)
  else if String.eqb (Transaction.transaction_type transaction) "Withdraw"
  then Account.set_balance self
         (Account.balance self - Transaction.amount transaction)
  else self.

(** [Account.update_balance]. *)
Definition Account_update_balance (now : nat) (self : Account.t)
  (transaction : Transaction.t Account.t) : M Account.t :=
  Account_save now (apply_transaction self transaction).

(** [Transaction.save].  The account object that is checked, mutated and
    saved is the one held by the instance, [self.account_number]. *)
Definition Transaction_save (now : nat) (self : Transaction.t Account.t)
  : M (Transaction.t Account.t) :=
  if Qlt_bool (Transaction.amount self) 0
  then raise (ValueError "Amount cannot be negative")
  else if String.eqb (Transaction.transaction_type self) "Withdraw"
          && Qlt_bool (Account.balance (Transaction.account_number self))
                      (Transaction.amount self)
  then raise (ValidationError "Not enough funds in the account")
  else
    saved <- Model_save_Transaction now self ;;
    account <- Account_update_balance now (Transaction.account_number saved)
                                      saved ;;
    ret (Transaction.set_account saved account).

(** ** Model forms ([fields = '__all__'])

    The request data is taken after field parsing: a number is a number
    and a string is stripped.  What is left to validate is presence,
    length, choices, the model's [clean] and uniqueness. *)

Module AccountForm.
Record t : Type := mk {
  account_number : string;
  balance : Q;
  customer_name : string;
  account_type : string
}.
End AccountForm.

Module TransactionForm.
(** [account_number] is the submitted primary key of the account. *)
Record t : Type := mk {
  transaction_id : string;
  account_number : nat;
  amount : Q;
  transaction_type : string;
  description : string;
  status : string
}.
End TransactionForm.

Inductive FormError : Type :=
| Required (field : string)
| MaxLength (field : string)
| InvalidChoice (field : string)
| NotUnique (field : string)
| NonFieldError (message : string).

Definition CharField_errors (field value : string) : list FormError :=
  if String.eqb value "" then [Required field]
  else if Nat.ltb 200 (String.length value) then [MaxLength field]
  else [].

Definition ChoiceField_errors (field : string) (choices : list string)
  (value : string) : list FormError :=
  if String.eqb value "" then [Required field]
  else if existsb (String.eqb value) choices then []
  else [InvalidChoice field].

Definition is_nil (A : Type) (l : list A) : bool :=
  match l with [] => true | _ => false end.

(** The instance a form builds: the submitted fields over [instance]. *)
Definition AccountForm_instance (instance : option Account.t)
  (data : AccountForm.t) : Account.t :=
  match instance with
  | Some obj =>
      Account.mk (Account.pk obj) (AccountForm.account_number data)
        (AccountForm.balance data) (AccountForm.customer_name data)
        (AccountForm.account_type data) (Account.account_creation obj)
        (Account.last_update obj)
  | None =>
      Account.mk None (AccountForm.account_number data)
        (AccountForm.balance data) (AccountForm.customer_name data)
        (AccountForm.account_type data) 0 0
  end.

(** [form.errors] of an account form: field errors, then the error of
    [Account.clean], then the unique check of a valid [account_number]. *)
Definition AccountForm_errors (instance : option Account.t)
  (data : AccountForm.t) (db : Db) : list FormError :=
  let obj := AccountForm_instance instance data in
  let number_errors :=
    CharField_errors "account_number" (AccountForm.account_number data) in
  number_errors
  ++ CharField_errors "customer_name" (AccountForm.customer_name data)
  ++ ChoiceField_errors "account_type" Account.ACCOUNT_TYPE_CHOICES
       (AccountForm.account_type data)
  ++ match Account_clean obj with
     | Raise (ValidationError message) => [NonFieldError message]
     | _ => []
     end
  ++ (if is_nil number_errors
         && Account_number_taken db (Account.pk obj)
                                 (AccountForm.account_number data)
      then [NotUnique "account_number"] else []).

Definition TransactionForm_errors (instance : option (Transaction.t nat))
  (data : TransactionForm.t) (db : Db) : list FormError :=
  let self_pk := match instance with
                 | Some obj => Transaction.pk obj
                 | None => None
                 end in
  let id_errors :=
    CharField_errors "transaction_id" (TransactionForm.transaction_id data) in
  id_errors
  ++ match Account_by_pk db (TransactionForm.account_number data) with
     | Some _ => []
     | None => [InvalidChoice "account_number"]
     end
  ++ ChoiceField_errors "transaction_type"
       Transaction.TRANSACTION_TYPE_CHOICES
       (TransactionForm.transaction_type data)
  ++ CharField_errors "description" (TransactionForm.description data)
  ++ CharField_errors "status" (TransactionForm.status data)
  ++ (if is_nil id_errors
         && Transaction_id_taken db self_pk
                                 (TransactionForm.transaction_id data)
      then [NotUnique "transaction_id"] else []).

Definition TransactionForm_instance (instance : option (Transaction.t nat))
  (data : TransactionForm.t) (account : Account.t)
  : Transaction.t Account.t :=
  Transaction.mk
    (match instance with Some obj => Transaction.pk obj | None => None end)
    (TransactionForm.transaction_id data) account
    (TransactionForm.amount data) (TransactionForm.transaction_type data)
    (match instance with Some obj => Transaction.timestamp obj | None => 0 end)
    (TransactionForm.description data) (TransactionForm.status data).

(** ** views.py *)

Inductive Payload : Type :=
| AccountData (obj : Account.t)
| TransactionData (obj : Transaction.t Account.t)
| ErrorsData (errors : list FormError)
| MessageData (message : string).

Record JsonResponse : Type := mkJsonResponse {
  data : Payload;
  status : nat
}.

Definition form_invalid (errors : list FormError) : M JsonResponse :=
  ret (mkJsonResponse (ErrorsData errors) 400).

Definition AccountCreateView_form_valid (now : nat) (form : AccountForm.t)
  : M JsonResponse :=
  object <- Account_save now (AccountForm_instance None form) ;;
  ret (mkJsonResponse (AccountData object) 201).

Definition AccountCreateView_post (now : nat) (form : AccountForm.t)
  : M JsonResponse :=
  fun db =>
    match AccountForm_errors None form db with
    | [] => AccountCreateView_form_valid now form db
    | errors => form_invalid errors db
    end.

Definition AccountUpdateView_form_valid (now : nat) (instance : Account.t)
  (form : AccountForm.t) : M JsonResponse :=
  object <- Account_save now (AccountForm_instance (Some instance) form) ;;
  ret (mkJsonResponse (AccountData object) 200).

Definition AccountUpdateView_post (now : nat) (pk : nat) (form : AccountForm.t)
  : M JsonResponse :=
  fun db =>
    match Account_by_pk db pk with
    | None => (Raise Http404, db)
    | Some instance =>
        match AccountForm_errors (Some instance) form db with
        | [] => AccountUpdateView_form_valid now instance form db
        | errors => form_invalid errors db
        end
    end.

Definition AccountDeleteView_post (account_number : string) : M JsonResponse :=
  fun db =>
    (object <- get_object_or_404 (Account_by_number db account_number) ;;
     Model_delete_Account object ;;;
     ret (mkJsonResponse (MessageData "Object deleted successfully.") 200)) db.

Definition AccountDetailView_get (account_number : string) : M JsonResponse :=
  fun db =>
    (obj <- get_object_or_404 (Account_by_number db account_number) ;;
     ret (mkJsonResponse (AccountData obj) 200)) db.

Definition TransactionCreateView_form_valid (now : nat)
  (form : TransactionForm.t) (account : Account.t) : M JsonResponse :=
  object <- Transaction_save now (TransactionForm_instance None form account) ;;
  ret (mkJsonResponse (TransactionData object) 201).

Definition TransactionCreateView_post (now : nat) (form : TransactionForm.t)
  : M JsonResponse :=
  fun db =>
    match TransactionForm_errors None form db,
          Account_by_pk db (TransactionForm.account_number form) with
    | [], Some account => TransactionCreateView_form_valid now form account db
    | errors, _ => form_invalid errors db
    end.

Definition TransactionUpdateView_form_valid (now : nat)
  (instance : Transaction.t nat) (form : TransactionForm.t)
  (account : Account.t) : M JsonResponse :=
  object <- Transaction_save now
              (TransactionForm_instance (Some instance) form account) ;;
  ret (mkJsonResponse (TransactionData object) 200).

Definition TransactionUpdateView_post (now : nat) (pk : nat)
  (form : TransactionForm.t) : M JsonResponse :=
  fun db =>
    match Transaction_by_pk db pk with
    | None => (Raise Http404, db)
    | Some instance =>
        match TransactionForm_errors (Some instance) form db,
              Account_by_pk db (TransactionForm.account_number form) with
        | [], Some account =>
            TransactionUpdateView_form_valid now instance form account db
        | errors, _ => form_invalid errors db
        end
    end.

Definition TransactionDeleteView_post (transaction_id : string)
  : M JsonResponse :=
  fun db =>
    (object <- get_object_or_404 (Transaction_by_id db transaction_id) ;;
     Model_delete_Transaction object ;;;
     ret (mkJsonResponse (MessageData "Object deleted successfully.") 200)) db.

Definition TransactionDetailView_get (transaction_id : string)
  : M JsonResponse :=
  fun db =>
    (obj <- get_object_or_404 (Transaction_by_id db transaction_id) ;;
     account <- get_object_or_404
                  (Account_by_pk db (Transaction.account_number obj)) ;;
     ret (mkJsonResponse
            (TransactionData (Transaction.set_account obj account)) 200)) db.

(** ** urls.py *)

Inductive Request : Type :=
| account_create_view (form : AccountForm.t)
| account_update_view (pk : nat) (form : AccountForm.t)
| account_delete_view (account_number : string)
| account_detail_view (account_number : string)
| transaction_create_view (form : TransactionForm.t)
| transaction_update_view (pk : nat) (form : TransactionForm.t)
| transaction_delete_view (transaction_id : string)
| transaction_detail_view (transaction_id : string).

Definition urlpatterns (now : nat) (request : Request) : M JsonResponse :=
  match request with
  | account_create_view form => AccountCreateView_post now form
  | account_update_view pk form => AccountUpdateView_post now pk form
  | account_delete_view n => AccountDeleteView_post n
  | account_detail_view n => AccountDetailView_get n
  | transaction_create_view form => TransactionCreateView_post now form
  | transaction_update_view pk form => TransactionUpdateView_post now pk form
  | transaction_delete_view i => TransactionDeleteView_post i
  | transaction_detail_view i => TransactionDetailView_get i
  end.

(** ** The transaction listing *)

(** Modelled from the spec: [listTransactionsForAccount(accountNumber)], the
    view behind the route ['transaction_list_view'] that [tests.py] calls;
    neither [views.py] nor [urls.py] defines it.  It resolves the account
    number, fails with AccountNotFound (the 404 the tests expect, raised
    as [Http404]) when no account has it, and otherwise returns the
    transactions that reference the account, in the order of the table,
    which is the order of creation.  It writes nothing. *)
Definition TransactionListView_get (account_number : string)
  : M (list (Transaction.t nat)) :=
  fun db =>
    match Account_by_number db account_number with
    | None => (Raise Http404, db)
    | Some account =>
        (Ok (filter (fun row => pk_eqb (Some (Transaction.account_number row))
                                       (Account.pk account))
                    (transactions db)),
         db)
    end.

(** ** Runs of the system *)

(** The database reached from [db] by serving [requests] in order, each
    paired with the clock value of its handling. *)
Fixpoint serve (requests : list (nat * Request)) (db : Db) : Db :=
  match requests with
  | [] => db
  | (now, request) :: rest => serve rest (snd (urlpatterns now request db))
  end.

(** The reachable databases: the empty one, and whatever a request leaves
    behind, whether it answered or raised. *)
Inductive reachable : Db -> Prop :=
| reachable_empty : reachable empty_db
| reachable_step (db : Db) (now : nat) (request : Request) :
    reachable db -> reachable (snd (urlpatterns now request db)).

(** A response that reports success (200 or 201), as opposed to a 400
    answer or a raised exception. *)
Definition succeeded (r : result JsonResponse) : bool :=
  match r with
  | Ok response => Nat.ltb (status response) 400
  | Raise _ => false
  end.

(** The signed effect of a transaction on a balance. *)
Definition signedEffect (transaction_type : string) (amount : Q) : Q :=
  if String.eqb transaction_type "Deposit" then amount
  else if String.eqb transaction_type "Withdraw" then - amount
  else 0.

(** The account a request to the ledger writes for: the one its form
    names.  Only the creation and the update of a transaction write a
    transaction record. *)
Definition ledger_account (request : Request) : option nat :=
  match request with
  | transaction_create_view form
  | transaction_update_view _ form =>
      Some (TransactionForm.account_number form)
  | _ => None
  end.



(** Creation order of stored transactions: keys come from the sequence,
    so the row created first has the smaller key. *)
Definition created_before (t1 t2 : Transaction.t nat) : Prop :=
  match Transaction.pk t1, Transaction.pk t2 with
  | Some k1, Some k2 => (k1 < k2)%nat
  | _, _ => False
  end.

(** ** The fixture of tests.py

    The account and the deposit that [TransactionUpdateViewTest.setUp]
    creates, and the update its first test posts. *)
Definition fixture_account : AccountForm.t :=
  AccountForm.mk "1234567890" 500 "Jhon Doe" "Savings".

Definition fixture_deposit : TransactionForm.t :=
  TransactionForm.mk "abcdefghijk" 1 500 "Deposit" "Initial Deposit" "Sucess".

Definition fixture_update : TransactionForm.t :=
  TransactionForm.mk "1234567890" 1 1200 "Deposit" "Update Data" "Success".

Definition fixture_requests : list (nat * Request) :=
  [(1%nat, account_create_view fixture_account);
   (2%nat, transaction_create_view fixture_deposit)].

Definition fixture_db : Db := serve fixture_requests empty_db.

(** ** Well-formed databases *)

(** The keys of a table, in row order: every row has a key, keys grow
    strictly from [lo] and stay below the sequence [seq]. *)
Fixpoint keys_ok (lo : nat) (pks : list (option nat)) (seq : nat) : Prop :=
  match pks with
  | [] => (lo <= seq)%nat
  | Some k :: rest => (lo <= k)%nat /\ keys_ok (S k) rest seq
  | None :: _ => False
  end.

(** A unique column [name] of a table keyed by [key]: some row other than
    the one with key [self_pk] already carries [n].  [Account_number_taken]
    and [Transaction_id_taken] are its two instances. *)
Definition name_taken (A : Type) (key : A -> option nat) (name : A -> string)
  (l : list A) (self_pk : option nat) (n : string) : bool :=
  existsb (fun row => String.eqb (name row) n
                      && negb (pk_eqb (key row) self_pk)) l.

(** The UPDATE of the rows with key [k]; [replace_account] and
    [replace_transaction] are its two instances. *)
Definition replace_key (A : Type) (key : A -> option nat) (k : nat) (row : A)
  (l : list A) : list A :=
  map (fun r => if match key r with
                   | Some k' => Nat.eqb k' k
                   | None => false
                   end then row else r) l.

Record wf (db : Db) : Prop := mkWf {
  wf_balance : Forall (fun a => 0 <= Account.balance a) (accounts db);
  wf_account_keys :
    keys_ok 0 (map Account.pk (accounts db)) (account_seq db);
  wf_account_number :
    NoDup (map Account.account_number (accounts db));
  wf_transaction_keys :
    keys_ok 0 (map (@Transaction.pk nat) (transactions db))
            (transaction_seq db);
  wf_transaction_id :
    NoDup (map (@Transaction.transaction_id nat) (transactions db))
}.

(** Referential integrity: every stored transaction references the key
    of a stored account. *)
Definition fk_ok (db : Db) : Prop :=
  forall t, In t (transactions db) ->
            existsb (Account.has_pk (Transaction.account_number t))
                    (accounts db) = true.

(** The object a request addresses through its URL is not in the
    database: the [pk] of an update, the [account_number] or the
    [transaction_id] of a delete or a detail.  A creation addresses none. *)
Definition missing_object (db : Db) (request : Request) : bool :=
  match request with
  | account_create_view _ => false
  | account_update_view pk _ =>
      match Account_by_pk db pk with Some _ => false | None => true end
  | account_delete_view n
  | account_detail_view n =>
      match Account_by_number db n with Some _ => false | None => true end
  | transaction_create_view _ => false
  | transaction_update_view pk _ =>
      match Transaction_by_pk db pk with Some _ => false | None => true end
  | transaction_delete_view i
  | transaction_detail_view i =>
      match Transaction_by_id db i with Some _ => false | None => true end
  end.

(** ** The arithmetic of [FloatField]

    Where the rational model and binary64 agree, and the arithmetic of
    models.py in binary64 itself. *)

(** An integer of magnitude at most 2^53: a value binary64 holds exactly. *)
Definition exact_integer (x : Q) : bool :=
  (Z.modulo (Qnum x) (Zpos (Qden x)) =? 0)%Z
  && (Z.abs (Qnum x) <=? 2 ^ 53 * Zpos (Qden x))%Z.

(** One application of a transaction computed without rounding: the
    balance, the amount and the new balance are such integers, so binary64
    returns the sum or the difference itself. *)
Definition exact_step (balance : Q) (transaction_type : string) (amount : Q)
  : bool :=
  exact_integer balance && exact_integer amount
  && exact_integer (balance + signedEffect transaction_type amount).


Example exact_integer_bounds :
  exact_integer 1200 = true
  /\ exact_integer 9007199254740992 = true
  /\ exact_integer 9007199254740993 = false
  /\ exact_integer 10000000000000000 = false
  /\ exact_integer (1 # 100) = false.
Proof.
  repeat split; reflexivity.
Qed.






(** ** What the routes of urls.py accept *)

Fixpoint has_slash (s : string) : bool :=
  match s with
  | EmptyString => false
  | String c rest => Ascii.eqb c "/"%char || has_slash rest
  end.

(** The [str] converter matches a non-empty string without a slash. *)
Definition str_converter (s : string) : bool :=
  negb (String.eqb s "") && negb (has_slash s).

(** The URL of the request matches its route: every [<int:pk>] does, a
    [<str:...>] argument must pass [str_converter].  [urlpatterns] calls
    the view whatever the argument; for an argument the converter does not
    accept the routing answers 404 before any view is called. *)
Definition routable (request : Request) : bool :=
  match request with
  | account_delete_view n
  | account_detail_view n => str_converter n
  | transaction_delete_view i
  | transaction_detail_view i => str_converter i
  | _ => true
  end.


(** ** The account creation form before parsing *)

Module AccountPost.
(** [balance] is [None] when the submitted field is missing, is not a
    number or is not finite: the form field then fails and the instance the
    form builds keeps [balance = None]. *)
Record t : Type := mk {
  account_number : string;
  balance : option Q;
  customer_name : string;
  account_type : string
}.
End AccountPost.

(** [AccountCreateView] on the submitted data.  Form validation runs
    [Account.clean] on the new instance whatever the field errors; with no
    parsed balance its [self.balance <= 0] compares [None] with a number
    and raises [TypeError], before the view can answer. *)
Definition AccountCreateView_post_data (now : nat) (post : AccountPost.t)
  : M JsonResponse :=
  match AccountPost.balance post with
  | Some balance =>
      AccountCreateView_post now
        (AccountForm.mk (AccountPost.account_number post) balance
                        (AccountPost.customer_name post)
                        (AccountPost.account_type post))
  | None =>
      raise (TypeError
               "'<=' not supported between instances of 'NoneType' and 'int'")
  end.

Unset Implicit Arguments.

(** * Proofs *)

Lemma Qlt_bool_true (x y : Q) : Qlt_bool x y = true <-> x < y.
Proof.
  unfold Qlt_bool. rewrite negb_true_iff. split; intro H.
  - apply Qnot_le_lt. intro Hle. apply Qle_bool_iff in Hle. congruence.
  - destruct (Qle_bool y x) eqn:E; trivial.
    apply Qle_bool_iff in E. exfalso. exact (Qlt_not_le _ _ H E).
Qed.

Lemma Qlt_bool_false (x y : Q) : Qlt_bool x y = false <-> y <= x.
Proof.
  unfold Qlt_bool. rewrite negb_false_iff. apply Qle_bool_iff.
Qed.

Lemma pk_eqb_eq (a b : option nat) : pk_eqb a b = true <-> a = b.
Proof.
  destruct a, b; simpl; try (split; congruence).
  rewrite Nat.eqb_eq. split; congruence.
Qed.

Lemma Account_has_pk_iff (k : nat) (row : Account.t) :
  Account.has_pk k row = true <-> Account.pk row = Some k.
Proof.
  unfold Account.has_pk. destruct (Account.pk row); [|split; discriminate].
  rewrite Nat.eqb_eq. split; congruence.
Qed.

Lemma Transaction_has_pk_iff (A : Type) (k : nat) (row : Transaction.t A) :
  Transaction.has_pk k row = true <-> Transaction.pk row = Some k.
Proof.
  unfold Transaction.has_pk.
  destruct (Transaction.pk row); [|split; discriminate].
  rewrite Nat.eqb_eq. split; congruence.
Qed.

Section Keys.

Local Open Scope nat_scope.

Variable A : Type.
Variable key : A -> option nat.

Lemma keys_ok_lo (pks : list (option nat)) :
  forall lo lo' seq, lo' <= lo -> keys_ok lo pks seq -> keys_ok lo' pks seq.
Proof.
  destruct pks as [|[k|] rest]; simpl; intros; intuition lia.
Qed.

Lemma keys_ok_seq (pks : list (option nat)) :
  forall lo seq seq', seq <= seq' -> keys_ok lo pks seq -> keys_ok lo pks seq'.
Proof.
  induction pks as [|[k|] rest IH]; simpl; intros lo seq seq' Hle H.
  - lia.
  - destruct H as [H1 H2]. split; [exact H1 | eapply IH; eauto].
  - exact H.
Qed.

Lemma keys_ok_bound (pks : list (option nat)) :
  forall lo seq, keys_ok lo pks seq -> lo <= seq.
Proof.
  induction pks as [|[k|] rest IH]; simpl; intros lo seq H.
  - exact H.
  - destruct H as [H1 H2]. apply IH in H2. lia.
  - contradiction.
Qed.

Lemma keys_ok_In (l : list A) :
  forall lo seq r, keys_ok lo (map key l) seq -> In r l ->
    exists k, key r = Some k /\ lo <= k /\ k < seq.
Proof.
  induction l as [|x l IH]; simpl; intros lo seq r H Hin; [contradiction|].
  destruct (key x) as [k|] eqn:E; [|contradiction].
  destruct H as [H1 H2]. destruct Hin as [->|Hin].
  - exists k. apply keys_ok_bound in H2. repeat split; trivial; lia.
  - destruct (IH _ _ _ H2 Hin) as (k' & Hk & Hlo & Hseq).
    exists k'. repeat split; trivial; lia.
Qed.

Lemma keys_ok_filter (p : A -> bool) (l : list A) :
  forall lo seq, keys_ok lo (map key l) seq ->
    keys_ok lo (map key (filter p l)) seq.
Proof.
  induction l as [|x l IH]; simpl; intros lo seq H; [exact H|].
  destruct (key x) as [k|] eqn:E; [|contradiction].
  destruct H as [H1 H2]. destruct (p x); simpl.
  - rewrite E. split; [exact H1 | apply IH; exact H2].
  - apply IH. eapply keys_ok_lo; [|exact H2]. lia.
Qed.

Lemma keys_ok_app (l : list A) (x : A) :
  forall lo seq, keys_ok lo (map key l) seq -> key x = Some seq ->
    keys_ok lo (map key (l ++ [x])) (S seq).
Proof.
  induction l as [|y l IH]; simpl; intros lo seq H Hx.
  - rewrite Hx. simpl. lia.
  - destruct (key y) as [k|]; [|contradiction].
    destruct H as [H1 H2]. split; [exact H1 | apply IH; assumption].
Qed.

(** Replacing rows by a row of the same key leaves the keys as they are. *)
Lemma keys_replace (k : nat) (row : A) (l : list A) :
  key row = Some k ->
  map key (map (fun r => if match key r with
                            | Some k' => Nat.eqb k' k
                            | None => false
                            end then row else r) l) = map key l.
Proof.
  intros Hrow. induction l as [|x l IH]; simpl; [reflexivity|].
  rewrite IH. f_equal. destruct (key x) as [k'|] eqn:E; [|exact E].
  destruct (Nat.eqb_spec k' k) as [->|]; congruence.
Qed.

(** No row after a key [k] below [lo] carries [k]. *)
Lemma keys_ok_fresh (l : list A) :
  forall lo seq k r, keys_ok lo (map key l) seq -> k < lo -> In r l ->
    key r <> Some k.
Proof.
  intros lo seq k r H Hk Hin Heq.
  destruct (@keys_ok_In l lo seq r H Hin) as (k' & Hk' & Hlo & _).
  rewrite Heq in Hk'. injection Hk' as <-. lia.
Qed.

End Keys.

(** Unique columns.  [name] is the unique column, [key] the primary key. *)
Section Unique.

Local Open Scope nat_scope.

Variable A : Type.
Variable key : A -> option nat.
Variable name : A -> string.

Lemma taken_false (l : list A) (self_pk : option nat) (n : string) :
  name_taken key name l self_pk n = false ->
  forall r, In r l -> name r = n -> key r = self_pk.
Proof.
  unfold name_taken. intros H r Hin Hn.
  assert (Hr : (String.eqb (name r) n
                && negb (pk_eqb (key r) self_pk))%bool = false).
  { destruct (String.eqb (name r) n
              && negb (pk_eqb (key r) self_pk))%bool eqn:E; trivial.
    assert (existsb (fun row => String.eqb (name row) n
                      && negb (pk_eqb (key row) self_pk))%bool l = true)
      by (apply existsb_exists; exists r; auto).
    congruence. }
  apply andb_false_iff in Hr. destruct Hr as [Hr|Hr].
  - apply String.eqb_neq in Hr. contradiction.
  - apply negb_false_iff, pk_eqb_eq in Hr. exact Hr.
Qed.

Lemma taken_true (l : list A) (self_pk : option nat) (n : string) :
  name_taken key name l self_pk n = true ->
  exists r, In r l /\ name r = n /\ key r <> self_pk.
Proof.
  unfold name_taken. intros H. apply existsb_exists in H.
  destruct H as (r & Hin & Hr). apply andb_true_iff in Hr.
  destruct Hr as [Hn Hk]. exists r. repeat split; trivial.
  - apply String.eqb_eq; exact Hn.
  - intro E. apply pk_eqb_eq in E. rewrite E in Hk. discriminate.
Qed.

Lemma replace_absent (k : nat) (row : A) (l : list A) :
  (forall r, In r l -> key r <> Some k) -> replace_key key k row l = l.
Proof.
  unfold replace_key. induction l as [|x l IH]; simpl; intros H; [reflexivity|].
  rewrite IH by (intros; apply H; auto). f_equal.
  destruct (key x) as [k'|] eqn:E; trivial.
  destruct (Nat.eqb_spec k' k) as [->|]; trivial.
  exfalso. apply (H x); auto.
Qed.

Lemma In_replace (k : nat) (row : A) (l : list A) (y : A) :
  In y (replace_key key k row l) ->
  y = row \/ (In y l /\ key y <> Some k).
Proof.
  unfold replace_key. rewrite in_map_iff. intros (r & Hr & Hin).
  destruct (key r) as [k'|] eqn:E.
  - destruct (Nat.eqb_spec k' k) as [->|Hne]; [left; congruence|].
    right. subst y. split; trivial. rewrite E. congruence.
  - right. subst y. split; trivial. rewrite E. discriminate.
Qed.

Lemma NoDup_name_app (l : list A) (x : A) :
  forall lo seq, keys_ok lo (map key l) seq ->
    NoDup (map name l) -> name_taken key name l None (name x) = false ->
    NoDup (map name (l ++ [x])).
Proof.
  intros lo seq Hk Hnd Ht. rewrite map_app. simpl.
  apply NoDup_rev in Hnd. rewrite <- (rev_involutive (map name l ++ _)).
  apply NoDup_rev. rewrite rev_app_distr. simpl. constructor; trivial.
  rewrite <- in_rev, in_map_iff. intros (r & Hn & Hin).
  pose proof (@taken_false l None (name x) Ht r Hin Hn) as Hnone.
  destruct (@keys_ok_In A key l lo seq r Hk Hin) as (k & Hsome & _).
  congruence.
Qed.

Lemma NoDup_name_replace (k : nat) (row : A) (l : list A) :
  forall lo seq, keys_ok lo (map key l) seq ->
    NoDup (map name l) -> name_taken key name l (Some k) (name row) = false ->
    NoDup (map name (replace_key key k row l)).
Proof.
  induction l as [|x l IH]; simpl; intros lo seq Hk Hnd Ht;
    [constructor|].
  destruct (key x) as [kx|] eqn:E; [|contradiction].
  destruct Hk as [Hlo Hk]. inversion Hnd as [|? ? Hx Hnd']; subst.
  assert (Htl : name_taken key name l (Some k) (name row) = false).
  { unfold name_taken in *. simpl in Ht. apply orb_false_iff in Ht. tauto. }
  destruct (Nat.eqb_spec kx k) as [->|Hne].
  - fold (replace_key key k row l). rewrite replace_absent.
    + constructor; trivial. rewrite in_map_iff. intros (r & Hn & Hin).
      pose proof (@taken_false l (Some k) (name row) Htl r Hin Hn) as Hr.
      eapply (@keys_ok_fresh A key l (S k) seq k r); eauto.
    + intros r Hin. eapply (@keys_ok_fresh A key l (S k) seq k r); eauto.
  - fold (replace_key key k row l). constructor; [|eapply IH; eauto].
    rewrite in_map_iff. intros (y & Hn & Hin).
    apply In_replace in Hin. destruct Hin as [->|[Hin _]].
    + apply orb_false_iff in Ht. destruct Ht as [Ht _].
      apply andb_false_iff in Ht. destruct Ht as [Ht|Ht].
      * apply String.eqb_neq in Ht. congruence.
      * simpl in Ht. apply negb_false_iff, Nat.eqb_eq in Ht. contradiction.
    + apply Hx. apply in_map_iff. exists y. auto.
Qed.

End Unique.

Lemma NoDup_name_filter (A : Type) (name : A -> string) (p : A -> bool)
  (l : list A) :
  NoDup (map name l) -> NoDup (map name (filter p l)).
Proof.
  induction l as [|x l IH]; simpl; intros Hnd; [constructor|].
  inversion Hnd as [|? ? Hx Hnd']; subst.
  destruct (p x); simpl; auto. constructor; auto.
  rewrite in_map_iff. intros (y & Hn & Hin).
  apply filter_In in Hin. apply Hx. apply in_map_iff. exists y. tauto.
Qed.

(** In a table with duplicate-free names a name identifies its row. *)
Lemma NoDup_name_inj (A : Type) (name : A -> string) (l : list A) (x y : A) :
  NoDup (map name l) -> In x l -> In y l -> name x = name y -> x = y.
Proof.
  induction l as [|z l IH]; simpl; intros Hnd Hx Hy Hn; [contradiction|].
  inversion Hnd as [|? ? Hz Hnd']; subst.
  destruct Hx as [->|Hx], Hy as [->|Hy]; trivial.
  - exfalso. apply Hz. rewrite Hn. apply in_map; exact Hy.
  - exfalso. apply Hz. rewrite <- Hn. apply in_map; exact Hx.
  - auto.
Qed.

(** ** The row writes keep the database well formed *)

Lemma Forall_replace_account (P : Account.t -> Prop) (k : nat)
  (row : Account.t) (l : list Account.t) :
  P row -> Forall P l -> Forall P (replace_account k row l).
Proof.
  intros Hrow Hl. unfold replace_account. apply Forall_forall.
  intros y Hy. apply in_map_iff in Hy. destruct Hy as (r & <- & Hin).
  destruct (Account.has_pk k r); trivial.
  eapply Forall_forall; eauto.
Qed.

Lemma Forall_filter (A : Type) (P : A -> Prop) (p : A -> bool) (l : list A) :
  Forall P l -> Forall P (filter p l).
Proof.
  intros H. apply Forall_forall. intros y Hy. apply filter_In in Hy.
  eapply Forall_forall; [exact H | tauto].
Qed.

Lemma Model_save_Account_wf (now : nat) (self : Account.t) (db db' : Db)
  (r : result Account.t) :
  wf db ->
  0 <= Account.balance self ->
  (forall k, Account.pk self = Some k ->
             existsb (Account.has_pk k) (accounts db) = true) ->
  Model_save_Account now self db = (r, db') ->
  wf db'.
Proof.
  intros Hwf Hb Hex Hsave. unfold Model_save_Account in Hsave.
  destruct (Account_number_taken db (Account.pk self)
              (Account.account_number self)) eqn:Ht.
  { inversion Hsave; subst; exact Hwf. }
  destruct Hwf as [Wb Wk Wn Wtk Wti].
  destruct (Account.pk self) as [k|] eqn:Epk.
  - rewrite (Hex k eq_refl) in Hsave. inversion Hsave; subst; clear Hsave.
    constructor; simpl; trivial.
    + apply Forall_replace_account; trivial.
    + replace (map Account.pk
                 (replace_account k (Account.updated self now) (accounts db)))
        with (map Account.pk (accounts db)); trivial.
      symmetry.
      exact (@keys_replace _ Account.pk k (Account.updated self now)
               (accounts db) Epk).
    + exact (@NoDup_name_replace _ Account.pk Account.account_number k
               (Account.updated self now) (accounts db) _ _ Wk Wn Ht).
  - inversion Hsave; subst; clear Hsave.
    constructor; simpl; trivial.
    + apply Forall_app. split; trivial. constructor; [exact Hb | constructor].
    + apply keys_ok_app; trivial.
    + exact (@NoDup_name_app _ Account.pk Account.account_number
               (accounts db) (Account.inserted self (account_seq db) now)
               _ _ Wk Wn Ht).
Qed.

Lemma Account_save_wf (now : nat) (self : Account.t) (db db' : Db)
  (r : result Account.t) :
  wf db ->
  (forall k, Account.pk self = Some k ->
             existsb (Account.has_pk k) (accounts db) = true) ->
  Account_save now self db = (r, db') ->
  wf db'.
Proof.
  intros Hwf Hex Hsave. unfold Account_save in Hsave.
  destruct (Qlt_bool (Account.balance self) 0) eqn:E.
  - inversion Hsave; subst; exact Hwf.
  - apply Qlt_bool_false in E. eapply Model_save_Account_wf; eauto.
Qed.

(** What [Model_save_Transaction] leaves: the accounts untouched, and,
    when it returns, an instance on the same account whose row exists. *)
Lemma Model_save_Transaction_accounts (now : nat)
  (self : Transaction.t Account.t) (db db' : Db)
  (r : result (Transaction.t Account.t)) :
  Model_save_Transaction now self db = (r, db') ->
  accounts db' = accounts db /\ account_seq db' = account_seq db.
Proof.
  unfold Model_save_Transaction. intros H.
  destruct (Account.pk (Transaction.account_number self)) as [a|];
    [|inversion H; subst; auto].
  destruct (Transaction_id_taken db _ _ || _)%bool;
    [inversion H; subst; auto|].
  destruct (Transaction.pk self) as [k|];
    [destruct (existsb (Transaction.has_pk k) (transactions db))|];
    inversion H; subst; auto.
Qed.

Lemma Model_save_Transaction_Ok (now : nat)
  (self saved : Transaction.t Account.t) (db db' : Db) :
  Model_save_Transaction now self db = (Ok saved, db') ->
  Transaction.account_number saved = Transaction.account_number self
  /\ Transaction.amount saved = Transaction.amount self
  /\ Transaction.transaction_type saved = Transaction.transaction_type self
  /\ exists a, Account.pk (Transaction.account_number self) = Some a
               /\ existsb (Account.has_pk a) (accounts db) = true.
Proof.
  unfold Model_save_Transaction. intros H.
  destruct (Account.pk (Transaction.account_number self)) as [a|];
    [|discriminate].
  destruct (Transaction_id_taken db _ _) eqn:Et; simpl in H; [discriminate|].
  destruct (existsb (Account.has_pk a) (accounts db)) eqn:Ea; simpl in H;
    [|discriminate].
  destruct (Transaction.pk self) as [k|];
    [destruct (existsb (Transaction.has_pk k) (transactions db))|];
    inversion H; subst; simpl; eauto 10.
Qed.

Lemma Model_save_Transaction_wf (now : nat) (self : Transaction.t Account.t)
  (db db' : Db) (r : result (Transaction.t Account.t)) :
  wf db ->
  (forall k, Transaction.pk self = Some k ->
             existsb (Transaction.has_pk k) (transactions db) = true) ->
  Model_save_Transaction now self db = (r, db') ->
  wf db'.
Proof.
  intros Hwf Hex Hsave. unfold Model_save_Transaction in Hsave.
  destruct (Account.pk (Transaction.account_number self)) as [a|];
    [|inversion Hsave; subst; exact Hwf].
  destruct (Transaction_id_taken db (Transaction.pk self)
              (Transaction.transaction_id self)) eqn:Ht; simpl in Hsave.
  { inversion Hsave; subst; exact Hwf. }
  destruct (existsb (Account.has_pk a) (accounts db)); simpl in Hsave;
    [|inversion Hsave; subst; exact Hwf].
  destruct Hwf as [Wb Wk Wn Wtk Wti].
  destruct (Transaction.pk self) as [k|] eqn:Epk.
  - rewrite (Hex k eq_refl) in Hsave. inversion Hsave; subst; clear Hsave.
    constructor; simpl; trivial.
    + replace (map (@Transaction.pk nat)
                 (replace_transaction k (Transaction_row self a)
                    (transactions db)))
        with (map (@Transaction.pk nat) (transactions db)); trivial.
      symmetry.
      exact (@keys_replace _ (@Transaction.pk nat) k (Transaction_row self a)
               (transactions db) Epk).
    + exact (@NoDup_name_replace _ (@Transaction.pk nat)
               (@Transaction.transaction_id nat) k (Transaction_row self a)
               (transactions db) _ _ Wtk Wti Ht).
  - inversion Hsave; subst; clear Hsave.
    constructor; simpl; trivial.
    + apply keys_ok_app; trivial.
    + exact (@NoDup_name_app _ (@Transaction.pk nat)
               (@Transaction.transaction_id nat) (transactions db)
               (Transaction_row
                  (Transaction.inserted self (transaction_seq db) now) a)
               _ _ Wtk Wti Ht).
Qed.

Lemma apply_transaction_pk (self : Account.t)
  (transaction : Transaction.t Account.t) :
  Account.pk (apply_transaction self transaction) = Account.pk self.
Proof.
  unfold apply_transaction.
  destruct (String.eqb _ "Deposit"); [reflexivity|].
  destruct (String.eqb _ "Withdraw"); reflexivity.
Qed.

Lemma Transaction_save_wf (now : nat) (self : Transaction.t Account.t)
  (db db' : Db) (r : result (Transaction.t Account.t)) :
  wf db ->
  (forall k, Transaction.pk self = Some k ->
             existsb (Transaction.has_pk k) (transactions db) = true) ->
  Transaction_save now self db = (r, db') ->
  wf db'.
Proof.
  intros Hwf Hex Hsave. unfold Transaction_save in Hsave.
  destruct (Qlt_bool (Transaction.amount self) 0);
    [inversion Hsave; subst; exact Hwf|].
  destruct (_ && _)%bool; [inversion Hsave; subst; exact Hwf|].
  unfold bind in Hsave.
  destruct (Model_save_Transaction now self db) as [[saved|e] db1] eqn:E1.
  - pose proof (Model_save_Transaction_wf _ _ _ _ _ Hwf Hex E1) as Hwf1.
    destruct (Model_save_Transaction_accounts _ _ _ _ _ E1) as [Hacc _].
    destruct (Model_save_Transaction_Ok _ _ _ _ _ E1)
      as (Hsame & _ & _ & a & Ha & Hexa).
    destruct (Account_update_balance now (Transaction.account_number saved)
                saved db1) as [[account|e] db2] eqn:E2.
    + inversion Hsave; subst. unfold Account_update_balance in E2.
      eapply Account_save_wf; [exact Hwf1| |exact E2].
      intros k Hk. rewrite apply_transaction_pk, Hsame, Ha in Hk.
      injection Hk as <-. rewrite Hacc. exact Hexa.
    + inversion Hsave; subst. unfold Account_update_balance in E2.
      eapply Account_save_wf; [exact Hwf1| |exact E2].
      intros k Hk. rewrite apply_transaction_pk, Hsame, Ha in Hk.
      injection Hk as <-. rewrite Hacc. exact Hexa.
  - inversion Hsave; subst. eapply Model_save_Transaction_wf; eauto.
Qed.

Lemma Model_delete_Transaction_wf (self : Transaction.t nat) (db db' : Db)
  (r : result unit) :
  wf db -> Model_delete_Transaction self db = (r, db') -> wf db'.
Proof.
  intros Hwf H. unfold Model_delete_Transaction in H.
  destruct (Transaction.pk self) as [k|]; inversion H; subst; trivial.
  destruct Hwf as [Wb Wk Wn Wtk Wti]. constructor; simpl; trivial.
  - apply (keys_ok_filter _ (@Transaction.pk nat)); exact Wtk.
  - apply (NoDup_name_filter _ (@Transaction.transaction_id nat)); exact Wti.
Qed.

Lemma Model_delete_Account_wf (self : Account.t) (db db' : Db)
  (r : result unit) :
  wf db -> Model_delete_Account self db = (r, db') -> wf db'.
Proof.
  intros Hwf H. unfold Model_delete_Account in H.
  destruct (Account.pk self) as [k|]; inversion H; subst; trivial.
  destruct Hwf as [Wb Wk Wn Wtk Wti]. constructor; simpl.
  - apply Forall_filter; exact Wb.
  - apply keys_ok_filter; exact Wk.
  - apply NoDup_name_filter; exact Wn.
  - apply (keys_ok_filter _ (@Transaction.pk nat)); exact Wtk.
  - apply (NoDup_name_filter _ (@Transaction.transaction_id nat)); exact Wti.
Qed.

(** ** Every request keeps the database well formed *)

Lemma bind_ret_db (A B : Type) (m : M A) (g : A -> B) (db : Db) :
  snd (bind m (fun x => ret (g x)) db) = snd (m db).
Proof.
  unfold bind, ret. destruct (m db) as [[a|e] d]; reflexivity.
Qed.

Lemma Account_by_pk_Some (db : Db) (k : nat) (a : Account.t) :
  Account_by_pk db k = Some a ->
  In a (accounts db) /\ Account.pk a = Some k
  /\ existsb (Account.has_pk k) (accounts db) = true.
Proof.
  unfold Account_by_pk. intros H. apply find_some in H.
  destruct H as [Hin Hk]. repeat split; trivial.
  - apply Account_has_pk_iff; exact Hk.
  - apply existsb_exists. exists a. auto.
Qed.

Lemma Transaction_by_pk_Some (db : Db) (k : nat) (t : Transaction.t nat) :
  Transaction_by_pk db k = Some t ->
  In t (transactions db) /\ Transaction.pk t = Some k
  /\ existsb (Transaction.has_pk k) (transactions db) = true.
Proof.
  unfold Transaction_by_pk. intros H. apply find_some in H.
  destruct H as [Hin Hk]. repeat split; trivial.
  - apply Transaction_has_pk_iff; exact Hk.
  - apply existsb_exists. exists t. auto.
Qed.

Lemma urlpatterns_wf (now : nat) (request : Request) (db : Db) :
  wf db -> wf (snd (urlpatterns now request db)).
Proof.
  intros Hwf. destruct request as [form|pk form|n|n|form|pk form|i|i]; simpl.
  - unfold AccountCreateView_post.
    destruct (AccountForm_errors None form db); [|exact Hwf].
    unfold AccountCreateView_form_valid. rewrite bind_ret_db.
    eapply Account_save_wf; [exact Hwf| |apply surjective_pairing].
    simpl. discriminate.
  - unfold AccountUpdateView_post.
    destruct (Account_by_pk db pk) as [instance|] eqn:E; [|exact Hwf].
    destruct (AccountForm_errors (Some instance) form db); [|exact Hwf].
    unfold AccountUpdateView_form_valid. rewrite bind_ret_db.
    apply Account_by_pk_Some in E. destruct E as (_ & Hpk & Hex).
    eapply Account_save_wf; [exact Hwf| |apply surjective_pairing].
    simpl. intros k Hk. rewrite Hpk in Hk. injection Hk as <-. exact Hex.
  - unfold AccountDeleteView_post, bind, get_object_or_404.
    destruct (Account_by_number db n) as [object|]; simpl; [|exact Hwf].
    destruct (Model_delete_Account object db) as [[[]|e] d] eqn:E; simpl;
      eapply Model_delete_Account_wf; eauto.
  - unfold AccountDetailView_get, bind, get_object_or_404.
    destruct (Account_by_number db n); exact Hwf.
  - unfold TransactionCreateView_post.
    destruct (TransactionForm_errors None form db); [|exact Hwf].
    destruct (Account_by_pk db (TransactionForm.account_number form))
      as [account|]; [|exact Hwf].
    unfold TransactionCreateView_form_valid. rewrite bind_ret_db.
    eapply Transaction_save_wf; [exact Hwf| |apply surjective_pairing].
    simpl. discriminate.
  - unfold TransactionUpdateView_post.
    destruct (Transaction_by_pk db pk) as [instance|] eqn:E; [|exact Hwf].
    destruct (TransactionForm_errors (Some instance) form db); [|exact Hwf].
    destruct (Account_by_pk db (TransactionForm.account_number form))
      as [account|]; [|exact Hwf].
    unfold TransactionUpdateView_form_valid. rewrite bind_ret_db.
    apply Transaction_by_pk_Some in E. destruct E as (_ & Hpk & Hex).
    eapply Transaction_save_wf; [exact Hwf| |apply surjective_pairing].
    simpl. intros k Hk. rewrite Hpk in Hk. injection Hk as <-. exact Hex.
  - unfold TransactionDeleteView_post, bind, get_object_or_404.
    destruct (Transaction_by_id db i) as [object|]; simpl; [|exact Hwf].
    destruct (Model_delete_Transaction object db) as [[[]|e] d] eqn:E; simpl;
      eapply Model_delete_Transaction_wf; eauto.
  - unfold TransactionDetailView_get, bind, get_object_or_404.
    destruct (Transaction_by_id db i) as [obj|]; simpl; [|exact Hwf].
    destruct (Account_by_pk db (Transaction.account_number obj));
      exact Hwf.
Qed.

Lemma empty_db_wf : wf empty_db.
Proof.
  constructor; simpl; try constructor; lia.
Qed.

Lemma reachable_wf (db : Db) : reachable db -> wf db.
Proof.
  induction 1 as [|db now request _ IH].
  - exact empty_db_wf.
  - apply urlpatterns_wf; exact IH.
Qed.

Lemma serve_reachable (requests : list (nat * Request)) :
  forall db, reachable db -> reachable (serve requests db).
Proof.
  induction requests as [|[now request] rest IH]; simpl; intros db H.
  - exact H.
  - apply IH. constructor; exact H.
Qed.

(** ** What a successful save wrote *)

Lemma Account_save_Ok (now : nat) (self r : Account.t) (db db' : Db) (a : nat) :
  Account_save now self db = (Ok r, db') ->
  Account.pk self = Some a ->
  existsb (Account.has_pk a) (accounts db) = true ->
  r = Account.updated self now
  /\ db' = mkDb (replace_account a (Account.updated self now) (accounts db))
                (transactions db) (account_seq db) (transaction_seq db)
                (journal db ++ [mkWrite AccountTable UPDATE a]).
Proof.
  unfold Account_save, Model_save_Account, raise. intros H Hpk Hex.
  destruct (Qlt_bool (Account.balance self) 0); [discriminate|].
  destruct (Account_number_taken db _ _); [discriminate|].
  rewrite Hpk, Hex in H. inversion H; subst. auto.
Qed.

Lemma find_replace_account (a : nat) (row : Account.t) (l : list Account.t) :
  Account.pk row = Some a ->
  existsb (Account.has_pk a) l = true ->
  find (Account.has_pk a) (replace_account a row l) = Some row.
Proof.
  intros Hrow. apply Account_has_pk_iff in Hrow.
  induction l as [|x l IH]; simpl; [discriminate|].
  destruct (Account.has_pk a x) eqn:E; simpl.
  - intros _. rewrite Hrow. reflexivity.
  - intros H. rewrite E. apply IH; exact H.
Qed.


(** [apply_transaction] reads only the type and the amount. *)
Lemma apply_transaction_ext (self : Account.t)
  (t t' : Transaction.t Account.t) :
  Transaction.transaction_type t = Transaction.transaction_type t' ->
  Transaction.amount t = Transaction.amount t' ->
  apply_transaction self t = apply_transaction self t'.
Proof.
  unfold apply_transaction. intros -> ->. reflexivity.
Qed.

Lemma apply_transaction_balance (self : Account.t)
  (t : Transaction.t Account.t) :
  Account.balance (apply_transaction self t)
  == Account.balance self
     + signedEffect (Transaction.transaction_type t) (Transaction.amount t).
Proof.
  unfold apply_transaction, signedEffect.
  destruct (String.eqb _ "Deposit"); simpl; [reflexivity|].
  destruct (String.eqb _ "Withdraw"); simpl; [reflexivity|].
  ring.
Qed.

(** The row write of a transaction, case by case. *)
Lemma Model_save_Transaction_written (now : nat)
  (self saved : Transaction.t Account.t) (db db1 : Db) :
  Model_save_Transaction now self db = (Ok saved, db1) ->
  exists a, Account.pk (Transaction.account_number self) = Some a /\
    ((exists k, Transaction.pk self = Some k
        /\ existsb (Transaction.has_pk k) (transactions db) = true
        /\ saved = self
        /\ db1 = mkDb (accounts db)
                   (replace_transaction k (Transaction_row self a)
                                        (transactions db))
                   (account_seq db) (transaction_seq db)
                   (journal db ++ [mkWrite TransactionTable UPDATE k]))
     \/ (exists k, Transaction.pk saved = Some k
        /\ saved = Transaction.inserted self k now
        /\ transactions db1 = transactions db ++ [Transaction_row saved a]
        /\ accounts db1 = accounts db
        /\ account_seq db1 = account_seq db
        /\ journal db1
           = journal db ++ [mkWrite TransactionTable INSERT k])).
Proof.
  unfold Model_save_Transaction. intros H.
  destruct (Account.pk (Transaction.account_number self)) as [a|];
    [|discriminate].
  exists a. split; [reflexivity|].
  destruct (Transaction_id_taken db _ _ || _)%bool; [discriminate|].
  destruct (Transaction.pk self) as [k|] eqn:Epk.
  - destruct (existsb (Transaction.has_pk k) (transactions db)) eqn:Ex;
      inversion H; subst; clear H.
    + left. exists k. auto.
    + right. exists k. simpl. auto 10.
  - inversion H; subst; clear H. right. exists (transaction_seq db).
    simpl. auto 10.
Qed.

(** A [Transaction.save] that returns wrote the transaction row and then
    the row of the account the instance holds, and nothing else. *)
Lemma Transaction_save_Ok (now : nat) (self r : Transaction.t Account.t)
  (db db' : Db) :
  Transaction_save now self db = (Ok r, db') ->
  exists saved db1 a,
    Model_save_Transaction now self db = (Ok saved, db1)
    /\ Account.pk (Transaction.account_number self) = Some a
    /\ r = Transaction.set_account saved
             (Account.updated
                (apply_transaction (Transaction.account_number self) self) now)
    /\ db' = mkDb
               (replace_account a
                  (Account.updated
                     (apply_transaction (Transaction.account_number self) self)
                     now)
                  (accounts db))
               (transactions db1) (account_seq db) (transaction_seq db1)
               (journal db1 ++ [mkWrite AccountTable UPDATE a]).
Proof.
  unfold Transaction_save. intros H.
  destruct (Qlt_bool (Transaction.amount self) 0); [discriminate|].
  destruct (_ && _)%bool; [discriminate|].
  unfold bind in H.
  destruct (Model_save_Transaction now self db) as [[saved|e] db1] eqn:E1;
    [|discriminate].
  destruct (Model_save_Transaction_accounts _ _ _ _ _ E1) as [Hacc Hseq].
  destruct (Model_save_Transaction_Ok _ _ _ _ _ E1)
    as (Hsame & Hamt & Hty & a & Ha & Hex).
  unfold Account_update_balance in H.
  destruct (Account_save now _ db1) as [[account|e] db2] eqn:E2;
    [|discriminate].
  inversion H; subst; clear H.
  rewrite Hsame in E2.
  rewrite (apply_transaction_ext _ saved self Hty Hamt) in E2.
  apply (Account_save_Ok _ _ _ _ _ a) in E2.
  - destruct E2 as [-> ->]. exists saved, db1, a.
    rewrite Hacc, Hseq. auto.
  - rewrite apply_transaction_pk. exact Ha.
  - rewrite Hacc. exact Hex.
Qed.

(** ** On a well-formed database a transaction is written whole or not
    at all *)

Lemma apply_transaction_number (self : Account.t)
  (transaction : Transaction.t Account.t) :
  Account.account_number (apply_transaction self transaction)
  = Account.account_number self.
Proof.
  unfold apply_transaction.
  destruct (String.eqb _ "Deposit"); [reflexivity|].
  destruct (String.eqb _ "Withdraw"); reflexivity.
Qed.

(** Saving an account that sits in the table, under its own number, with
    a balance that is not negative, goes through. *)
Lemma Account_save_existing (now : nat) (self row : Account.t) (db : Db)
  (a : nat) :
  NoDup (map Account.account_number (accounts db)) ->
  Account_by_pk db a = Some row ->
  Account.pk self = Some a ->
  Account.account_number self = Account.account_number row ->
  0 <= Account.balance self ->
  Account_save now self db
  = (Ok (Account.updated self now),
     mkDb (replace_account a (Account.updated self now) (accounts db))
          (transactions db) (account_seq db) (transaction_seq db)
          (journal db ++ [mkWrite AccountTable UPDATE a])).
Proof.
  intros Hnd Hrow Hpk Hnum Hb.
  apply Account_by_pk_Some in Hrow. destruct Hrow as (Hin & Hrpk & Hex).
  unfold Account_save, Model_save_Account.
  apply Qlt_bool_false in Hb. rewrite Hb.
  destruct (Account_number_taken db (Account.pk self)
              (Account.account_number self)) eqn:Ht.
  - exfalso.
    destruct (taken_true _ Account.pk Account.account_number _ _ _ Ht)
      as (r & Hr & Hn & Hk).
    assert (r = row).
    { apply (NoDup_name_inj _ Account.account_number (accounts db));
        trivial; congruence. }
    subst r. congruence.
  - rewrite Hpk, Hex. reflexivity.
Qed.

Lemma Model_save_Transaction_Raise (now : nat)
  (self : Transaction.t Account.t) (db db1 : Db) (e : Exception) :
  Model_save_Transaction now self db = (Raise e, db1) -> db1 = db.
Proof.
  unfold Model_save_Transaction. intros H.
  destruct (Account.pk (Transaction.account_number self)) as [a|];
    [|inversion H; reflexivity].
  destruct (Transaction_id_taken db _ _ || _)%bool;
    [inversion H; reflexivity|].
  destruct (Transaction.pk self) as [k|];
    [destruct (existsb (Transaction.has_pk k) (transactions db))|];
    discriminate.
Qed.

Lemma Model_save_Transaction_succeeds (now : nat)
  (self : Transaction.t Account.t) (db : Db) (a : nat) :
  Account.pk (Transaction.account_number self) = Some a ->
  existsb (Account.has_pk a) (accounts db) = true ->
  Transaction_id_taken db (Transaction.pk self)
    (Transaction.transaction_id self) = false ->
  exists saved db1, Model_save_Transaction now self db = (Ok saved, db1).
Proof.
  unfold Model_save_Transaction. intros -> -> ->. simpl.
  destruct (Transaction.pk self) as [k|];
    [destruct (existsb (Transaction.has_pk k) (transactions db))|];
    eauto.
Qed.

(** The balance [Transaction.save] is about to store is not negative. *)
Lemma apply_transaction_nonneg (self : Transaction.t Account.t) :
  0 <= Account.balance (Transaction.account_number self) ->
  Qlt_bool (Transaction.amount self) 0 = false ->
  (String.eqb (Transaction.transaction_type self) "Withdraw"
   && Qlt_bool (Account.balance (Transaction.account_number self))
               (Transaction.amount self))%bool = false ->
  0 <= Account.balance
         (apply_transaction (Transaction.account_number self) self).
Proof.
  intros Hb Hneg Hfunds. apply Qlt_bool_false in Hneg.
  unfold apply_transaction.
  destruct (String.eqb _ "Deposit"); simpl; [lra|].
  destruct (String.eqb _ "Withdraw"); simpl; [|exact Hb].
  simpl in Hfunds. apply Qlt_bool_false in Hfunds. lra.
Qed.

(** Once the transaction row is written the account row follows. *)
Lemma Transaction_save_after_row (now : nat)
  (self saved : Transaction.t Account.t) (db db1 : Db) (a : nat) :
  wf db ->
  Account_by_pk db a = Some (Transaction.account_number self) ->
  Qlt_bool (Transaction.amount self) 0 = false ->
  (String.eqb (Transaction.transaction_type self) "Withdraw"
   && Qlt_bool (Account.balance (Transaction.account_number self))
               (Transaction.amount self))%bool = false ->
  Model_save_Transaction now self db = (Ok saved, db1) ->
  exists obj db', Transaction_save now self db = (Ok obj, db').
Proof.
  intros Hwf Hacc Eneg Efunds E1. unfold Transaction_save.
  rewrite Eneg, Efunds. unfold bind. rewrite E1.
  destruct (Model_save_Transaction_accounts _ _ _ _ _ E1) as [Hacc1 _].
  destruct (Model_save_Transaction_Ok _ _ _ _ _ E1)
    as (Hsame & Hamt & Hty & _).
  unfold Account_update_balance. rewrite Hsame.
  rewrite (apply_transaction_ext _ saved self Hty Hamt).
  destruct (Account_by_pk_Some _ _ _ Hacc) as (Hin & Hpk & _).
  rewrite (Account_save_existing now _ (Transaction.account_number self)
             db1 a).
  - unfold ret. simpl. eauto.
  - rewrite Hacc1. apply Hwf.
  - unfold Account_by_pk. rewrite Hacc1. exact Hacc.
  - rewrite apply_transaction_pk. exact Hpk.
  - apply apply_transaction_number.
  - apply apply_transaction_nonneg; trivial.
    destruct Hwf as [Wb _ _ _ _].
    exact (proj1 (Forall_forall _ _) Wb _ Hin).
Qed.


(** * The claims *)

Lemma fixture_db_reachable : reachable fixture_db.
Proof.
  unfold fixture_db. apply serve_reachable. constructor.
Qed.

(** ** C2: balances are never negative *)

(** C2. In every reachable database every account has a balance that is
    at least 0, and whatever request is served next, answered or raised,
    the same holds of the database it leaves. *)
Theorem balance_never_negative (db : Db) :
  reachable db ->
  (forall a, In a (accounts db) -> 0 <= Account.balance a)
  /\ (forall now request a,
        In a (accounts (snd (urlpatterns now request db))) ->
        0 <= Account.balance a).
Proof.
  intros Hr. split.
  - intros a Hin. apply reachable_wf in Hr. destruct Hr as [Wb _ _ _ _].
    exact (proj1 (Forall_forall _ _) Wb a Hin).
  - intros now request a Hin.
    assert (Hwf : wf (snd (urlpatterns now request db)))
      by (apply urlpatterns_wf, reachable_wf; exact Hr).
    destruct Hwf as [Wb _ _ _ _].
    exact (proj1 (Forall_forall _ _) Wb a Hin).
Qed.

Lemma balance_never_negative_witness :
  0 <= Account.balance (Account.mk (Some 1%nat) "1234567890" 1000 "Jhon Doe"
                                   "Savings" 1 2).
Proof.
  apply (proj1 (balance_never_negative fixture_db fixture_db_reachable)).
  simpl. left. reflexivity.
Defined.

(** ** C5: an account cannot be opened with a balance of 0 or less *)

(** C5. Creating an account with a balance that is 0 or negative is
    answered 400 with the error of [Account.clean] (InvalidBalance) among
    the form errors, and the database is left as it was. *)
Theorem create_account_nonpositive_rejected (now : nat)
  (form : AccountForm.t) (db : Db) :
  AccountForm.balance form <= 0 ->
  exists errors,
    AccountCreateView_post now form db
    = (Ok (mkJsonResponse (ErrorsData errors) 400), db)
    /\ In (NonFieldError "Balance must be greater than 0 for new accounts")
          errors.
Proof.
  intros Hb. unfold AccountCreateView_post.
  assert (Hin : In (NonFieldError
                      "Balance must be greater than 0 for new accounts")
                   (AccountForm_errors None form db)).
  { unfold AccountForm_errors, Account_clean. simpl.
    apply Qle_bool_iff in Hb. rewrite Hb.
    apply in_or_app; right. apply in_or_app; right.
    apply in_or_app; right. apply in_or_app; left. simpl; auto. }
  destruct (AccountForm_errors None form db) as [|e errors];
    [contradiction|].
  exists (e :: errors). split; [reflexivity | exact Hin].
Qed.

Lemma create_account_nonpositive_rejected_witness :
  exists errors,
    AccountCreateView_post 3 (AccountForm.mk "42" 0 "Ann" "Checking")
                           fixture_db
    = (Ok (mkJsonResponse (ErrorsData errors) 400), fixture_db)
    /\ In (NonFieldError "Balance must be greater than 0 for new accounts")
          errors.
Proof.
  apply (create_account_nonpositive_rejected 3
           (AccountForm.mk "42" 0 "Ann" "Checking") fixture_db).
  simpl. apply Qle_refl.
Defined.

(** ** C9: an existing account cannot be saved with a negative balance *)

(** C9. For an existing account and a submitted balance below 0, the save
    of the rebuilt instance raises the validation error before any write.
    The update view lets that error out when the form has no other error,
    and answers 400 with the form errors when it has; the database is
    unchanged in both cases. *)
Theorem negative_balance_update_rejected (now pk : nat)
  (form : AccountForm.t) (db : Db) (instance : Account.t) :
  Account_by_pk db pk = Some instance ->
  AccountForm.balance form < 0 ->
  Account_save now (AccountForm_instance (Some instance) form) db
  = (Raise (ValidationError "Balance can not be negative"), db)
  /\ (AccountUpdateView_post now pk form db
      = (Raise (ValidationError "Balance can not be negative"), db)
      \/ exists e errors,
           AccountForm_errors (Some instance) form db = e :: errors
           /\ AccountUpdateView_post now pk form db
              = (Ok (mkJsonResponse (ErrorsData (e :: errors)) 400), db)).
Proof.
  intros Hget Hb.
  assert (Hsave :
            Account_save now (AccountForm_instance (Some instance) form) db
            = (Raise (ValidationError "Balance can not be negative"), db)).
  { unfold Account_save. simpl. apply Qlt_bool_true in Hb. rewrite Hb.
    reflexivity. }
  split; [exact Hsave|].
  unfold AccountUpdateView_post. rewrite Hget.
  destruct (AccountForm_errors (Some instance) form db) as [|e errors].
  - left. unfold AccountUpdateView_form_valid, bind. rewrite Hsave.
    reflexivity.
  - right. exists e, errors. split; reflexivity.
Qed.

Lemma negative_balance_update_rejected_witness :
  AccountUpdateView_post 3 1
    (AccountForm.mk "1234567890" (-1) "Jhon Doe" "Savings") fixture_db
  = (Raise (ValidationError "Balance can not be negative"), fixture_db).
Proof.
  destruct (negative_balance_update_rejected 3 1
              (AccountForm.mk "1234567890" (-1) "Jhon Doe" "Savings")
              fixture_db
              (Account.mk (Some 1%nat) "1234567890" 1000 "Jhon Doe"
                          "Savings" 1 2))
    as [_ [H|(e & errors & H & _)]].
  - reflexivity.
  - reflexivity.
  - exact H.
  - vm_compute in H. discriminate H.
Defined.

(** ** C7: deleting a transaction leaves the accounts alone *)

(** C7. Deleting a stored transaction answers 200, removes its row (the
    transaction id no longer resolves) and leaves the accounts table, and
    with it every balance and every other account field, exactly as it
    was. *)
Theorem delete_transaction_keeps_accounts (db : Db) (i : string)
  (t : Transaction.t nat) :
  reachable db ->
  Transaction_by_id db i = Some t ->
  exists db',
    TransactionDeleteView_post i db
    = (Ok (mkJsonResponse (MessageData "Object deleted successfully.") 200),
       db')
    /\ accounts db' = accounts db
    /\ Transaction_by_id db' i = None
    /\ ~ In t (transactions db').
Proof.
  intros Hr Hget. apply reachable_wf in Hr.
  destruct Hr as [_ _ _ Wtk Wti].
  pose proof Hget as Hfind. unfold Transaction_by_id in Hfind.
  apply find_some in Hfind. destruct Hfind as [Hin Hid].
  apply String.eqb_eq in Hid.
  destruct (keys_ok_In _ (@Transaction.pk nat) _ _ _ _ Wtk Hin)
    as (k & Hk & _).
  unfold TransactionDeleteView_post, bind, get_object_or_404.
  rewrite Hget. simpl. unfold Model_delete_Transaction. rewrite Hk.
  eexists. split; [reflexivity|]. simpl. split; [reflexivity|].
  assert (Hgone : forall t', In t' (filter
                    (fun r => negb (Transaction.has_pk k r))
                    (transactions db)) ->
                  Transaction.transaction_id t' <> i).
  { intros t' Hin' Hid'. apply filter_In in Hin'.
    destruct Hin' as [Hin' Hneq].
    assert (t' = t).
    { apply (NoDup_name_inj _ (@Transaction.transaction_id nat)
               (transactions db)); trivial. congruence. }
    subst t'. apply Transaction_has_pk_iff in Hk. rewrite Hk in Hneq.
    discriminate. }
  split.
  - unfold Transaction_by_id. simpl.
    destruct (find _ _) as [t'|] eqn:E; trivial.
    apply find_some in E. destruct E as [Hin' Hid'].
    apply String.eqb_eq in Hid'. exfalso. exact (Hgone t' Hin' Hid').
  - intros Hin'. exact (Hgone t Hin' Hid).
Qed.

Lemma delete_transaction_keeps_accounts_witness :
  exists db',
    TransactionDeleteView_post "abcdefghijk" fixture_db
    = (Ok (mkJsonResponse (MessageData "Object deleted successfully.") 200),
       db')
    /\ accounts db' = accounts fixture_db
    /\ Transaction_by_id db' "abcdefghijk" = None
    /\ ~ In (Transaction.mk (Some 1%nat) "abcdefghijk" 1%nat 500 "Deposit" 2
                            "Initial Deposit" "Sucess")
            (transactions db').
Proof.
  apply (delete_transaction_keeps_accounts fixture_db "abcdefghijk").
  - exact fixture_db_reachable.
  - reflexivity.
Defined.

(** ** C3: a withdrawal above the balance is refused *)

(** C3. On a reachable database, creating a Withdraw whose amount exceeds
    the current balance of its account fails and leaves the database
    unchanged, so no transaction row is stored and the balance stays.
    When the form has no other error, [Transaction.save] raises the
    validation error "Not enough funds in the account"
    (InsufficientFunds); when it has, the view answers 400 with them. *)
Theorem withdraw_over_balance_rejected (now : nat) (form : TransactionForm.t)
  (db : Db) (A : Account.t) :
  reachable db ->
  Account_by_pk db (TransactionForm.account_number form) = Some A ->
  TransactionForm.transaction_type form = "Withdraw"%string ->
  Account.balance A < TransactionForm.amount form ->
  TransactionCreateView_post now form db
  = (Raise (ValidationError "Not enough funds in the account"), db)
  \/ exists e errors,
       TransactionForm_errors None form db = e :: errors
       /\ TransactionCreateView_post now form db
          = (Ok (mkJsonResponse (ErrorsData (e :: errors)) 400), db).
Proof.
  intros Hr Hget Hty Hlt. apply reachable_wf in Hr.
  destruct Hr as [Wb _ _ _ _].
  destruct (Account_by_pk_Some _ _ _ Hget) as (Hin & _ & _).
  pose proof (proj1 (Forall_forall _ _) Wb A Hin) as Hb. simpl in Hb.
  unfold TransactionCreateView_post. rewrite Hget.
  destruct (TransactionForm_errors None form db) as [|e errors].
  - left.
    unfold TransactionCreateView_form_valid, bind, Transaction_save. simpl.
    assert (Hneg : Qlt_bool (TransactionForm.amount form) 0 = false)
      by (apply Qlt_bool_false; lra).
    rewrite Hneg, Hty. simpl.
    apply Qlt_bool_true in Hlt. rewrite Hlt. reflexivity.
  - right. exists e, errors. split; reflexivity.
Qed.

Lemma withdraw_over_balance_rejected_witness :
  TransactionCreateView_post 3
    (TransactionForm.mk "t2" 1 5000 "Withdraw" "ATM withdraw" "Success")
    fixture_db
  = (Raise (ValidationError "Not enough funds in the account"), fixture_db).
Proof.
  destruct (withdraw_over_balance_rejected 3
              (TransactionForm.mk "t2" 1 5000 "Withdraw" "ATM withdraw"
                                  "Success")
              fixture_db
              (Account.mk (Some 1%nat) "1234567890" 1000 "Jhon Doe"
                          "Savings" 1 2))
    as [H|(e & errors & H & _)].
  - exact fixture_db_reachable.
  - reflexivity.
  - reflexivity.
  - reflexivity.
  - exact H.
  - vm_compute in H. discriminate H.
Defined.

(** ** The balance after a successful [Transaction.save] *)

Lemma Transaction_save_balance (now : nat) (self r : Transaction.t Account.t)
  (db db' : Db) (a : nat) :
  Transaction_save now self db = (Ok r, db') ->
  Account_by_pk db a = Some (Transaction.account_number self) ->
  exists A',
    Account_by_pk db' a = Some A'
    /\ Account.balance A'
       == Account.balance (Transaction.account_number self)
          + signedEffect (Transaction.transaction_type self)
                         (Transaction.amount self).
Proof.
  intros Hsave Hget.
  destruct (Transaction_save_Ok _ _ _ _ _ Hsave)
    as (saved & db1 & a' & _ & Ha' & _ & ->).
  destruct (Account_by_pk_Some _ _ _ Hget) as (_ & Hpk & Hex).
  rewrite Hpk in Ha'. injection Ha' as <-.
  eexists. split.
  - unfold Account_by_pk. simpl. apply find_replace_account; trivial.
    simpl. rewrite apply_transaction_pk. exact Hpk.
  - simpl. apply apply_transaction_balance.
Qed.



(** ** C1: what an update of a transaction does to the balance *)




(** ** C4: a run of creations adds up *)






(** ** C6: one write to the ledger, one write to the account *)



(** ** C8: the transactions of an account *)

Lemma keys_ok_sorted (l : list (Transaction.t nat)) :
  forall lo seq,
    keys_ok lo (map (@Transaction.pk nat) l) seq ->
    StronglySorted created_before l.
Proof.
  induction l as [|x l IH]; simpl; intros lo seq H; [constructor|].
  destruct (Transaction.pk x) as [kx|] eqn:Ex; [|contradiction].
  destruct H as [_ H]. constructor; [eapply IH; exact H|].
  apply Forall_forall. intros y Hy.
  destruct (keys_ok_In _ (@Transaction.pk nat) _ _ _ _ H Hy)
    as (ky & Hky & Hlo & _).
  unfold created_before. rewrite Ex, Hky. lia.
Qed.

(** C8. The listing never changes the database. It raises the 404 of
    AccountNotFound when the account number resolves to no account. When
    it resolves, it returns exactly the stored transactions that reference
    the account, in creation order, and the empty list when there are
    none. *)
Theorem list_transactions_for_account (db : Db) (n : string) :
  reachable db ->
  snd (TransactionListView_get n db) = db
  /\ (Account_by_number db n = None ->
      fst (TransactionListView_get n db) = Raise Http404)
  /\ (forall account,
        Account_by_number db n = Some account ->
        exists l,
          fst (TransactionListView_get n db) = Ok l
          /\ (forall t, In t l <->
                        In t (transactions db)
                        /\ Some (Transaction.account_number t)
                           = Account.pk account)
          /\ StronglySorted created_before l
          /\ ((forall t, In t (transactions db) ->
                         Some (Transaction.account_number t)
                         <> Account.pk account) ->
              l = [])).
Proof.
  intros Hr. apply reachable_wf in Hr. destruct Hr as [_ _ _ Wtk _].
  unfold TransactionListView_get. split; [|split].
  - destruct (Account_by_number db n); reflexivity.
  - intros ->. reflexivity.
  - intros account ->.
    set (p := fun row : Transaction.t nat =>
                pk_eqb (Some (Transaction.account_number row))
                       (Account.pk account)).
    exists (filter p (transactions db)). split; [reflexivity|].
    assert (Hp : forall t, p t = true <->
                   Some (Transaction.account_number t) = Account.pk account)
      by (intros t; apply pk_eqb_eq).
    split; [|split].
    + intros t. rewrite filter_In, Hp. reflexivity.
    + eapply keys_ok_sorted.
      apply (keys_ok_filter _ (@Transaction.pk nat)). exact Wtk.
    + intros Hnone.
      destruct (filter p (transactions db)) as [|t l] eqn:E; trivial.
      assert (Hin : In t (filter p (transactions db)))
        by (rewrite E; simpl; auto).
      apply filter_In in Hin. destruct Hin as [Hin Heq].
      apply Hp in Heq. exfalso. exact (Hnone t Hin Heq).
Qed.

Lemma list_transactions_for_account_witness :
  fst (TransactionListView_get "1234567890" fixture_db)
  = Ok [Transaction.mk (Some 1%nat) "abcdefghijk" 1%nat 500 "Deposit" 2
                       "Initial Deposit" "Sucess"]
  /\ snd (TransactionListView_get "1234567890" fixture_db) = fixture_db.
Proof.
  split.
  - reflexivity.
  - exact (proj1 (list_transactions_for_account fixture_db "1234567890"
                    fixture_db_reachable)).
Defined.

(** ** C10: the boundary at exactly zero *)

Lemma TransactionForm_errors_nil (instance : option (Transaction.t nat))
  (form : TransactionForm.t) (db : Db) :
  TransactionForm_errors instance form db = [] ->
  Transaction_id_taken db
    (match instance with Some obj => Transaction.pk obj | None => None end)
    (TransactionForm.transaction_id form) = false.
Proof.
  unfold TransactionForm_errors. intros H.
  apply app_eq_nil in H. destruct H as [Hid H].
  do 4 (apply app_eq_nil in H; destruct H as [_ H]).
  rewrite Hid in H. simpl in H.
  destruct (Transaction_id_taken db _ _); [discriminate | reflexivity].
Qed.

(** C10. A Withdraw whose amount equals the current balance of its
    account is created (201) and leaves that balance equal to 0; and
    [Account.save] stores an instance whose balance is 0, for only a
    balance below 0 is refused there. *)
Theorem zero_balance_boundary (now : nat) (db : Db) :
  reachable db ->
  (forall form A,
      TransactionForm_errors None form db = [] ->
      Account_by_pk db (TransactionForm.account_number form) = Some A ->
      TransactionForm.transaction_type form = "Withdraw"%string ->
      TransactionForm.amount form == Account.balance A ->
      exists response db' A',
        TransactionCreateView_post now form db = (Ok response, db')
        /\ status response = 201%nat
        /\ Account_by_pk db' (TransactionForm.account_number form) = Some A'
        /\ Account.balance A' == 0)
  /\ (forall self,
        Account.balance self == 0 ->
        Account_number_taken db (Account.pk self)
                             (Account.account_number self) = false ->
        exists row db',
          Account_save now self db = (Ok row, db')
          /\ In row (accounts db')
          /\ Account.balance row = Account.balance self).
Proof.
  intros Hr. apply reachable_wf in Hr. split.
  - intros form A Herr Hacc Hty Hamt.
    destruct (Account_by_pk_Some _ _ _ Hacc) as (Hin & Hpk & Hex).
    assert (Hb : 0 <= Account.balance A).
    { destruct Hr as [Wb _ _ _ _].
      exact (proj1 (Forall_forall _ _) Wb A Hin). }
    pose (self := TransactionForm_instance None form A).
    assert (Eneg : Qlt_bool (Transaction.amount self) 0 = false)
      by (apply Qlt_bool_false; simpl; lra).
    assert (Efunds :
              (String.eqb (Transaction.transaction_type self) "Withdraw"
               && Qlt_bool (Account.balance (Transaction.account_number self))
                           (Transaction.amount self))%bool = false).
    { apply andb_false_iff. right. apply Qlt_bool_false. simpl. lra. }
    destruct (Model_save_Transaction_succeeds now self db _ Hpk Hex
                (TransactionForm_errors_nil None form db Herr))
      as (saved & db1 & E1).
    destruct (Transaction_save_after_row now self saved db db1 _
                Hr Hacc Eneg Efunds E1) as (obj & db' & Hsave).
    destruct (Transaction_save_balance now self obj db db' _ Hsave Hacc)
      as (A' & Hacc' & Hbal).
    exists (mkJsonResponse (TransactionData obj) 201), db', A'.
    repeat split; trivial.
    + unfold TransactionCreateView_post. rewrite Herr, Hacc.
      unfold TransactionCreateView_form_valid, bind. fold self.
      rewrite Hsave. reflexivity.
    + rewrite Hbal. simpl. unfold signedEffect. rewrite Hty. simpl. lra.
  - intros self Hz Hfree. unfold Account_save.
    assert (E : Qlt_bool (Account.balance self) 0 = false)
      by (apply Qlt_bool_false; lra).
    rewrite E. unfold Model_save_Account. rewrite Hfree.
    destruct (Account.pk self) as [k|];
      [destruct (existsb (Account.has_pk k) (accounts db)) eqn:Ex|];
      do 2 eexists; (split; [reflexivity|]); simpl; split; trivial.
    + apply existsb_exists in Ex. destruct Ex as (r & Hin & Hk).
      unfold replace_account. apply in_map_iff. exists r.
      rewrite Hk. auto.
    + apply in_or_app. right. simpl. auto.
    + apply in_or_app. right. simpl. auto.
Qed.

Lemma zero_balance_boundary_witness :
  (exists response db' A',
     TransactionCreateView_post 3
       (TransactionForm.mk "t2" 1 1000 "Withdraw" "ATM withdraw" "Success")
       fixture_db = (Ok response, db')
     /\ status response = 201%nat
     /\ Account_by_pk db' 1 = Some A'
     /\ Account.balance A' == 0)
  /\ (exists row db',
        Account_save 3 (Account.mk None "42" 0 "Ann" "Checking" 0 0) fixture_db
        = (Ok row, db')
        /\ In row (accounts db')
        /\ Account.balance row = 0).
Proof.
  destruct (zero_balance_boundary 3 fixture_db fixture_db_reachable)
    as [Hwithdraw Hsave].
  split.
  - apply (Hwithdraw
             (TransactionForm.mk "t2" 1 1000 "Withdraw" "ATM withdraw"
                                 "Success")
             (Account.mk (Some 1%nat) "1234567890" 1000 "Jhon Doe"
                         "Savings" 1 2)); reflexivity.
  - apply (Hsave (Account.mk None "42" 0 "Ann" "Checking" 0 0));
      reflexivity.
Defined.

(** ** The scenario of tests.py, end to end *)

(** [test_if_balance_is_updated_on_a_new_transaction] and
    [test_withdraw_more_balance_than_available], through the views: an
    account opened with 500, a Deposit of 1000, a Withdraw of 300, and a
    Withdraw of 5000 that is refused. *)
Example scenario_balances :
  let opened := serve [(1%nat, account_create_view fixture_account)] empty_db in
  let deposit := TransactionForm.mk "d1" 1 1000 "Deposit" "pay" "Success" in
  let withdraw := TransactionForm.mk "w1" 1 300 "Withdraw" "ATM" "Success" in
  let too_much := TransactionForm.mk "w2" 1 5000 "Withdraw" "ATM" "Success" in
  let db1 := snd (urlpatterns 2 (transaction_create_view deposit) opened) in
  let db2 := snd (urlpatterns 3 (transaction_create_view withdraw) db1) in
  option_map Account.balance (Account_by_pk opened 1) = Some 500
  /\ option_map Account.balance (Account_by_pk db1 1) = Some 1500
  /\ option_map Account.balance (Account_by_pk db2 1) = Some 1200
  /\ urlpatterns 4 (transaction_create_view too_much) db2
     = (Raise (ValidationError "Not enough funds in the account"), db2).
Proof.
  repeat split; reflexivity.
Qed.

(** * Further properties of the views and the models *)

(** ** Referential integrity is kept *)

Lemma existsb_replace_account (a k : nat) (row : Account.t)
  (l : list Account.t) :
  Account.pk row = Some k ->
  existsb (Account.has_pk a) (replace_account k row l)
  = existsb (Account.has_pk a) l.
Proof.
  intros Hrow. induction l as [|x l IH]; simpl; [reflexivity|].
  rewrite IH. f_equal.
  destruct (Account.has_pk k x) eqn:E; [|reflexivity].
  apply Account_has_pk_iff in E. unfold Account.has_pk.
  rewrite Hrow, E. reflexivity.
Qed.

Lemma Model_save_Account_fk (now : nat) (self : Account.t) (db db' : Db)
  (r : result Account.t) :
  fk_ok db -> Model_save_Account now self db = (r, db') -> fk_ok db'.
Proof.
  unfold Model_save_Account. intros Hfk H.
  destruct (Account_number_taken db _ _); [inversion H; subst; exact Hfk|].
  destruct (Account.pk self) as [k|] eqn:Epk;
    [destruct (existsb (Account.has_pk k) (accounts db))|];
    inversion H; subst; clear H; intros t Hin; simpl in *.
  - rewrite existsb_replace_account by exact Epk. apply Hfk; exact Hin.
  - rewrite existsb_app, (Hfk t Hin). reflexivity.
  - rewrite existsb_app, (Hfk t Hin). reflexivity.
Qed.

Lemma Account_save_fk (now : nat) (self : Account.t) (db db' : Db)
  (r : result Account.t) :
  fk_ok db -> Account_save now self db = (r, db') -> fk_ok db'.
Proof.
  unfold Account_save. intros Hfk H.
  destruct (Qlt_bool (Account.balance self) 0).
  - inversion H; subst; exact Hfk.
  - eapply Model_save_Account_fk; eauto.
Qed.

Lemma Model_save_Transaction_fk (now : nat) (self : Transaction.t Account.t)
  (db db' : Db) (r : result (Transaction.t Account.t)) :
  fk_ok db -> Model_save_Transaction now self db = (r, db') -> fk_ok db'.
Proof.
  unfold Model_save_Transaction. intros Hfk H.
  destruct (Account.pk (Transaction.account_number self)) as [a|];
    [|inversion H; subst; exact Hfk].
  destruct (Transaction_id_taken db _ _); simpl in H;
    [inversion H; subst; exact Hfk|].
  destruct (existsb (Account.has_pk a) (accounts db)) eqn:Ea; simpl in H;
    [|inversion H; subst; exact Hfk].
  destruct (Transaction.pk self) as [k|];
    [destruct (existsb (Transaction.has_pk k) (transactions db))|];
    inversion H; subst; clear H; intros t Hin; simpl in *.
  - unfold replace_transaction in Hin. apply in_map_iff in Hin.
    destruct Hin as (x & Hx & Hin).
    destruct (Transaction.has_pk k x); subst t; [exact Ea | apply Hfk; exact Hin].
  - apply in_app_or in Hin. destruct Hin as [Hin|[<-|[]]];
      [apply Hfk; exact Hin | exact Ea].
  - apply in_app_or in Hin. destruct Hin as [Hin|[<-|[]]];
      [apply Hfk; exact Hin | exact Ea].
Qed.

Lemma Transaction_save_fk (now : nat) (self : Transaction.t Account.t)
  (db db' : Db) (r : result (Transaction.t Account.t)) :
  fk_ok db -> Transaction_save now self db = (r, db') -> fk_ok db'.
Proof.
  unfold Transaction_save. intros Hfk H.
  destruct (Qlt_bool (Transaction.amount self) 0);
    [inversion H; subst; exact Hfk|].
  destruct (_ && _)%bool; [inversion H; subst; exact Hfk|].
  unfold bind in H.
  destruct (Model_save_Transaction now self db) as [[saved|e] db1] eqn:E1.
  - pose proof (Model_save_Transaction_fk _ _ _ _ _ Hfk E1) as Hfk1.
    unfold Account_update_balance in H.
    destruct (Account_save now _ db1) as [[account|e] db2] eqn:E2;
      inversion H; subst; eapply Account_save_fk; eauto.
  - inversion H; subst. eapply Model_save_Transaction_fk; eauto.
Qed.

Lemma Model_delete_Transaction_fk (self : Transaction.t nat) (db db' : Db)
  (r : result unit) :
  fk_ok db -> Model_delete_Transaction self db = (r, db') -> fk_ok db'.
Proof.
  unfold Model_delete_Transaction. intros Hfk H.
  destruct (Transaction.pk self) as [k|]; inversion H; subst; trivial.
  intros t Hin. simpl in *. apply filter_In in Hin. apply Hfk. tauto.
Qed.

Lemma Model_delete_Account_fk (self : Account.t) (db db' : Db)
  (r : result unit) :
  fk_ok db -> Model_delete_Account self db = (r, db') -> fk_ok db'.
Proof.
  unfold Model_delete_Account. intros Hfk H.
  destruct (Account.pk self) as [k|]; inversion H; subst; trivial.
  intros t Hin. simpl in *. apply filter_In in Hin.
  destruct Hin as [Hin Hk]. apply negb_true_iff, Nat.eqb_neq in Hk.
  pose proof (Hfk t Hin) as Hex. apply existsb_exists in Hex.
  destruct Hex as (x & Hx & Hpk). apply existsb_exists. exists x.
  split; [|exact Hpk]. apply filter_In. split; [exact Hx|].
  apply negb_true_iff. destruct (Account.has_pk k x) eqn:E; trivial.
  apply Account_has_pk_iff in E, Hpk. congruence.
Qed.

Lemma urlpatterns_fk_ok (now : nat) (request : Request) (db : Db) :
  fk_ok db -> fk_ok (snd (urlpatterns now request db)).
Proof.
  intros Hfk. destruct request as [form|pk form|n|n|form|pk form|i|i]; simpl.
  - unfold AccountCreateView_post.
    destruct (AccountForm_errors None form db); [|exact Hfk].
    unfold AccountCreateView_form_valid. rewrite bind_ret_db.
    eapply Account_save_fk; [exact Hfk | apply surjective_pairing].
  - unfold AccountUpdateView_post.
    destruct (Account_by_pk db pk) as [instance|]; [|exact Hfk].
    destruct (AccountForm_errors (Some instance) form db); [|exact Hfk].
    unfold AccountUpdateView_form_valid. rewrite bind_ret_db.
    eapply Account_save_fk; [exact Hfk | apply surjective_pairing].
  - unfold AccountDeleteView_post, bind, get_object_or_404.
    destruct (Account_by_number db n) as [object|]; simpl; [|exact Hfk].
    destruct (Model_delete_Account object db) as [[[]|e] d] eqn:E; simpl;
      eapply Model_delete_Account_fk; eauto.
  - unfold AccountDetailView_get, bind, get_object_or_404.
    destruct (Account_by_number db n); exact Hfk.
  - unfold TransactionCreateView_post.
    destruct (TransactionForm_errors None form db); [|exact Hfk].
    destruct (Account_by_pk db (TransactionForm.account_number form))
      as [account|]; [|exact Hfk].
    unfold TransactionCreateView_form_valid. rewrite bind_ret_db.
    eapply Transaction_save_fk; [exact Hfk | apply surjective_pairing].
  - unfold TransactionUpdateView_post.
    destruct (Transaction_by_pk db pk) as [instance|]; [|exact Hfk].
    destruct (TransactionForm_errors (Some instance) form db); [|exact Hfk].
    destruct (Account_by_pk db (TransactionForm.account_number form))
      as [account|]; [|exact Hfk].
    unfold TransactionUpdateView_form_valid. rewrite bind_ret_db.
    eapply Transaction_save_fk; [exact Hfk | apply surjective_pairing].
  - unfold TransactionDeleteView_post, bind, get_object_or_404.
    destruct (Transaction_by_id db i) as [object|]; simpl; [|exact Hfk].
    destruct (Model_delete_Transaction object db) as [[[]|e] d] eqn:E; simpl;
      eapply Model_delete_Transaction_fk; eauto.
  - unfold TransactionDetailView_get, bind, get_object_or_404.
    destruct (Transaction_by_id db i) as [obj|]; simpl; [|exact Hfk].
    destruct (Account_by_pk db (Transaction.account_number obj)); exact Hfk.
Qed.

Lemma reachable_fk_ok (db : Db) : reachable db -> fk_ok db.
Proof.
  induction 1 as [|db now request _ IH].
  - intros t [].
  - apply urlpatterns_fk_ok; exact IH.
Qed.

Lemma existsb_find_account (db : Db) (k : nat) :
  existsb (Account.has_pk k) (accounts db) = true ->
  exists a, Account_by_pk db k = Some a.
Proof.
  unfold Account_by_pk. intros H.
  destruct (find (Account.has_pk k) (accounts db)) as [a|] eqn:E; eauto.
  apply existsb_exists in H. destruct H as (x & Hin & Hx).
  rewrite (find_none _ _ E x Hin) in Hx. discriminate.
Qed.

(** ** Stored rows and their lookups *)

Lemma keys_ok_inj (A : Type) (key : A -> option nat) (l : list A) :
  forall lo seq x y,
    keys_ok lo (map key l) seq -> In x l -> In y l -> key x = key y -> x = y.
Proof.
  induction l as [|z l IH]; simpl; intros lo seq x y H Hx Hy Hk;
    [contradiction|].
  destruct (key z) as [kz|] eqn:Ez; [|contradiction].
  destruct H as [_ H].
  destruct Hx as [->|Hx], Hy as [->|Hy]; trivial.
  - exfalso. apply (keys_ok_fresh A key l (S kz) seq kz y H); [lia|exact Hy|].
    congruence.
  - exfalso. apply (keys_ok_fresh A key l (S kz) seq kz x H); [lia|exact Hx|].
    congruence.
  - eapply IH; eauto.
Qed.

Lemma find_unique (A : Type) (p : A -> bool) (l : list A) (x : A) :
  In x l -> p x = true ->
  (forall y, In y l -> p y = true -> y = x) ->
  find p l = Some x.
Proof.
  intros Hin Hp Huniq. destruct (find p l) as [y|] eqn:E.
  - apply find_some in E. destruct E as [Hy Hpy].
    rewrite (Huniq y Hy Hpy). reflexivity.
  - rewrite (find_none _ _ E x Hin) in Hp. discriminate.
Qed.

Lemma find_app_fresh (A : Type) (p : A -> bool) (l : list A) (x : A) :
  (forall y, In y l -> p y = false) -> p x = true ->
  find p (l ++ [x]) = Some x.
Proof.
  intros Hl Hx. induction l as [|z l IH]; simpl.
  - rewrite Hx. reflexivity.
  - rewrite (Hl z) by (simpl; auto). apply IH. intros y Hy.
    apply Hl. simpl; auto.
Qed.

Lemma filter_all (A : Type) (p : A -> bool) (l : list A) :
  (forall y, In y l -> p y = true) -> filter p l = l.
Proof.
  induction l as [|z l IH]; simpl; intros H; [reflexivity|].
  rewrite (H z) by auto. f_equal. apply IH. intros y Hy. apply H; auto.
Qed.

Lemma wf_Account_by_pk (db : Db) (a : Account.t) (k : nat) :
  wf db -> In a (accounts db) -> Account.pk a = Some k ->
  Account_by_pk db k = Some a.
Proof.
  intros Hwf Hin Hk. unfold Account_by_pk. apply find_unique; trivial.
  - apply Account_has_pk_iff; exact Hk.
  - intros y Hy Hpy. apply Account_has_pk_iff in Hpy.
    destruct Hwf as [_ Wk _ _ _].
    apply (keys_ok_inj _ Account.pk (accounts db) _ _ y a Wk); trivial.
    congruence.
Qed.

Lemma wf_Account_by_number (db : Db) (a : Account.t) :
  wf db -> In a (accounts db) ->
  Account_by_number db (Account.account_number a) = Some a.
Proof.
  intros Hwf Hin. unfold Account_by_number. apply find_unique; trivial.
  - apply String.eqb_refl.
  - intros y Hy Hpy. apply String.eqb_eq in Hpy.
    destruct Hwf as [_ _ Wn _ _].
    exact (NoDup_name_inj _ Account.account_number _ y a Wn Hy Hin Hpy).
Qed.

Lemma wf_Transaction_by_pk (db : Db) (t : Transaction.t nat) (k : nat) :
  wf db -> In t (transactions db) -> Transaction.pk t = Some k ->
  Transaction_by_pk db k = Some t.
Proof.
  intros Hwf Hin Hk. unfold Transaction_by_pk. apply find_unique; trivial.
  - apply Transaction_has_pk_iff; exact Hk.
  - intros y Hy Hpy. apply Transaction_has_pk_iff in Hpy.
    destruct Hwf as [_ _ _ Wtk _].
    apply (keys_ok_inj _ (@Transaction.pk nat) (transactions db) _ _ y t Wtk);
      trivial.
    congruence.
Qed.

Lemma wf_Transaction_by_id (db : Db) (t : Transaction.t nat) :
  wf db -> In t (transactions db) ->
  Transaction_by_id db (Transaction.transaction_id t) = Some t.
Proof.
  intros Hwf Hin. unfold Transaction_by_id. apply find_unique; trivial.
  - apply String.eqb_refl.
  - intros y Hy Hpy. apply String.eqb_eq in Hpy.
    destruct Hwf as [_ _ _ _ Wti].
    exact (NoDup_name_inj _ (@Transaction.transaction_id nat) _ y t
             Wti Hy Hin Hpy).
Qed.

(** X1. In every reachable database a stored row is what its lookups
    return: an account is found under its [account_number] and under its
    key, a transaction under its [transaction_id] and under its key.  So
    the unique columns hold no duplicate and no row lacks a key. *)
Theorem stored_rows_are_looked_up (db : Db) :
  reachable db ->
  (forall a, In a (accounts db) ->
     Account_by_number db (Account.account_number a) = Some a
     /\ exists k, Account.pk a = Some k /\ Account_by_pk db k = Some a)
  /\ (forall t, In t (transactions db) ->
        Transaction_by_id db (Transaction.transaction_id t) = Some t
        /\ exists k, Transaction.pk t = Some k
                     /\ Transaction_by_pk db k = Some t).
Proof.
  intros Hr. apply reachable_wf in Hr. split.
  - intros a Hin. split; [apply wf_Account_by_number; trivial|].
    destruct (keys_ok_In _ Account.pk _ _ _ a (wf_account_keys Hr) Hin)
      as (k & Hk & _).
    exists k. split; [exact Hk | apply wf_Account_by_pk; trivial].
  - intros t Hin. split; [apply wf_Transaction_by_id; trivial|].
    destruct (keys_ok_In _ (@Transaction.pk nat) _ _ _ t
                (wf_transaction_keys Hr) Hin) as (k & Hk & _).
    exists k. split; [exact Hk | apply wf_Transaction_by_pk; trivial].
Qed.

Lemma stored_rows_are_looked_up_witness :
  Account_by_number fixture_db "1234567890"
  = Some (Account.mk (Some 1%nat) "1234567890" 1000 "Jhon Doe" "Savings" 1 2).
Proof.
  apply (proj1 (stored_rows_are_looked_up fixture_db fixture_db_reachable)
           (Account.mk (Some 1%nat) "1234567890" 1000 "Jhon Doe"
                       "Savings" 1 2)).
  simpl. left. reflexivity.
Defined.

(** X2. In every reachable database each stored transaction references an
    account that is stored: creation and update resolve the account before
    they write, and deleting an account deletes its transactions. *)
Theorem transactions_reference_accounts (db : Db) (t : Transaction.t nat) :
  reachable db ->
  In t (transactions db) ->
  exists a, Account_by_pk db (Transaction.account_number t) = Some a.
Proof.
  intros Hr Hin. apply existsb_find_account.
  exact (reachable_fk_ok db Hr t Hin).
Qed.

Lemma transactions_reference_accounts_witness :
  exists a, Account_by_pk fixture_db 1 = Some a.
Proof.
  apply (transactions_reference_accounts fixture_db
           (Transaction.mk (Some 1%nat) "abcdefghijk" 1%nat 500 "Deposit" 2
                           "Initial Deposit" "Sucess")).
  - exact fixture_db_reachable.
  - simpl. left. reflexivity.
Defined.

(** X3. On a reachable database the detail view of a stored transaction
    always answers 200 with the row and the account it references, and
    writes nothing: the related account is never missing. *)
Theorem transaction_detail_resolves (db : Db) (i : string)
  (t : Transaction.t nat) :
  reachable db ->
  Transaction_by_id db i = Some t ->
  exists account,
    Account_by_pk db (Transaction.account_number t) = Some account
    /\ TransactionDetailView_get i db
       = (Ok (mkJsonResponse
                (TransactionData (Transaction.set_account t account)) 200),
          db).
Proof.
  intros Hr Hget. pose proof Hget as Hfind.
  unfold Transaction_by_id in Hfind. apply find_some in Hfind.
  destruct (existsb_find_account db (Transaction.account_number t)
              (reachable_fk_ok db Hr t (proj1 Hfind))) as (account & Hacc).
  exists account. split; [exact Hacc|].
  unfold TransactionDetailView_get, bind, get_object_or_404.
  rewrite Hget. simpl. rewrite Hacc. reflexivity.
Qed.

Lemma transaction_detail_resolves_witness :
  exists account,
    Account_by_pk fixture_db 1 = Some account
    /\ TransactionDetailView_get "abcdefghijk" fixture_db
       = (Ok (mkJsonResponse
                (TransactionData
                   (Transaction.set_account
                      (Transaction.mk (Some 1%nat) "abcdefghijk" 1%nat 500
                         "Deposit" 2 "Initial Deposit" "Sucess") account))
                200),
          fixture_db).
Proof.
  apply (transaction_detail_resolves fixture_db "abcdefghijk"
           (Transaction.mk (Some 1%nat) "abcdefghijk" 1%nat 500 "Deposit" 2
                           "Initial Deposit" "Sucess")).
  - exact fixture_db_reachable.
  - reflexivity.
Defined.

(** ** What the saves can raise *)

Lemma Account_save_Raise (now : nat) (self : Account.t) (db db' : Db)
  (e : Exception) :
  Account_save now self db = (Raise e, db') ->
  db' = db
  /\ (e = ValidationError "Balance can not be negative"
      \/ e = IntegrityError).
Proof.
  unfold Account_save, Model_save_Account, raise. intros H.
  destruct (Qlt_bool (Account.balance self) 0);
    [inversion H; auto|].
  destruct (Account_number_taken db _ _); [inversion H; auto|].
  destruct (Account.pk self) as [k|];
    [destruct (existsb (Account.has_pk k) (accounts db))|]; discriminate.
Qed.

Lemma Model_save_Transaction_Raise_kind (now : nat)
  (self : Transaction.t Account.t) (db db' : Db) (e : Exception) :
  Model_save_Transaction now self db = (Raise e, db') ->
  e = IntegrityError \/ exists m, e = ValueError m.
Proof.
  unfold Model_save_Transaction. intros H.
  destruct (Account.pk (Transaction.account_number self)) as [a|];
    [|inversion H; eauto].
  destruct (Transaction_id_taken db _ _ || _)%bool; [inversion H; auto|].
  destruct (Transaction.pk self) as [k|];
    [destruct (existsb (Transaction.has_pk k) (transactions db))|];
    discriminate.
Qed.

(** A [Transaction.save] that raises leaves the accounts as they were, and
    what it raises is one of its two own errors or an error of the row
    writes; never [Http404]. *)
Lemma Transaction_save_Raise (now : nat) (self : Transaction.t Account.t)
  (db db' : Db) (e : Exception) :
  Transaction_save now self db = (Raise e, db') ->
  accounts db' = accounts db /\ e <> Http404.
Proof.
  unfold Transaction_save, raise. intros H.
  destruct (Qlt_bool (Transaction.amount self) 0);
    [inversion H; split; [reflexivity|discriminate]|].
  destruct (_ && _)%bool;
    [inversion H; split; [reflexivity|discriminate]|].
  unfold bind in H.
  destruct (Model_save_Transaction now self db) as [[saved|e1] db1] eqn:E1.
  - destruct (Model_save_Transaction_accounts _ _ _ _ _ E1) as [Hacc _].
    unfold Account_update_balance in H.
    destruct (Account_save now _ db1) as [[account|e2] db2] eqn:E2;
      [discriminate|].
    inversion H; subst.
    destruct (Account_save_Raise _ _ _ _ _ E2) as [-> [->| ->]];
      (split; [exact Hacc | discriminate]).
  - inversion H; subst.
    rewrite (Model_save_Transaction_Raise _ _ _ _ _ E1).
    split; [reflexivity|].
    destruct (Model_save_Transaction_Raise_kind _ _ _ _ _ E1)
      as [->|(m & ->)]; discriminate.
Qed.

(** ** X4: when a view answers "not found" *)

(** X4. On a reachable database, a request whose URL matches its route
    raises [Http404] exactly when the object that URL addresses is not
    stored, and then it writes nothing.  No failure of a form, of a save
    or of a delete is reported as "not found".  (A URL whose [str]
    argument is empty or holds a slash matches no route and is answered
    404 by the routing itself.) *)
Theorem http404_iff_missing (now : nat) (request : Request) (db : Db) :
  reachable db ->
  routable request = true ->
  (fst (urlpatterns now request db) = Raise Http404
   <-> missing_object db request = true)
  /\ (missing_object db request = true ->
      snd (urlpatterns now request db) = db).
Proof.
  intros Hr _. pose proof (reachable_fk_ok db Hr) as Hfk.
  apply reachable_wf in Hr.
  destruct request as [form|pk form|n|n|form|pk form|i|i]; simpl.
  - unfold AccountCreateView_post.
    destruct (AccountForm_errors None form db);
      [|split; [split|]; discriminate].
    unfold AccountCreateView_form_valid, bind.
    destruct (Account_save now _ db) as [[object|e] db'] eqn:E; simpl;
      (split; [split|]; try discriminate).
    intros He. injection He as ->.
    destruct (Account_save_Raise _ _ _ _ _ E) as [_ [?|?]]; discriminate.
  - unfold AccountUpdateView_post.
    destruct (Account_by_pk db pk) as [instance|]; simpl;
      [|split; [split|]; reflexivity].
    destruct (AccountForm_errors (Some instance) form db);
      [|split; [split|]; discriminate].
    unfold AccountUpdateView_form_valid, bind.
    destruct (Account_save now _ db) as [[object|e] db'] eqn:E; simpl;
      (split; [split|]; try discriminate).
    intros He. injection He as ->.
    destruct (Account_save_Raise _ _ _ _ _ E) as [_ [?|?]]; discriminate.
  - unfold AccountDeleteView_post, bind, get_object_or_404.
    destruct (Account_by_number db n) as [object|] eqn:E; simpl;
      [|split; [split|]; reflexivity].
    unfold Account_by_number in E. apply find_some in E.
    destruct (keys_ok_In _ Account.pk _ _ _ object (wf_account_keys Hr)
                (proj1 E)) as (k & Hk & _).
    unfold Model_delete_Account. rewrite Hk. simpl.
    split; [split|]; discriminate.
  - unfold AccountDetailView_get, bind, get_object_or_404.
    destruct (Account_by_number db n); simpl;
      split; try split; try discriminate; reflexivity.
  - unfold TransactionCreateView_post.
    destruct (TransactionForm_errors None form db);
      [|split; [split|]; discriminate].
    destruct (Account_by_pk db (TransactionForm.account_number form))
      as [account|]; [|split; [split|]; discriminate].
    unfold TransactionCreateView_form_valid, bind.
    destruct (Transaction_save now _ db) as [[object|e] db'] eqn:E; simpl;
      (split; [split|]; try discriminate).
    intros He. injection He as ->.
    destruct (Transaction_save_Raise _ _ _ _ _ E) as [_ Hne].
    contradiction.
  - unfold TransactionUpdateView_post.
    destruct (Transaction_by_pk db pk) as [instance|]; simpl;
      [|split; [split|]; reflexivity].
    destruct (TransactionForm_errors (Some instance) form db);
      [|split; [split|]; discriminate].
    destruct (Account_by_pk db (TransactionForm.account_number form))
      as [account|]; [|split; [split|]; discriminate].
    unfold TransactionUpdateView_form_valid, bind.
    destruct (Transaction_save now _ db) as [[object|e] db'] eqn:E; simpl;
      (split; [split|]; try discriminate).
    intros He. injection He as ->.
    destruct (Transaction_save_Raise _ _ _ _ _ E) as [_ Hne].
    contradiction.
  - unfold TransactionDeleteView_post, bind, get_object_or_404.
    destruct (Transaction_by_id db i) as [object|] eqn:E; simpl;
      [|split; [split|]; reflexivity].
    unfold Transaction_by_id in E. apply find_some in E.
    destruct (keys_ok_In _ (@Transaction.pk nat) _ _ _ object
                (wf_transaction_keys Hr) (proj1 E)) as (k & Hk & _).
    unfold Model_delete_Transaction. rewrite Hk. simpl.
    split; [split|]; discriminate.
  - unfold TransactionDetailView_get, bind, get_object_or_404.
    destruct (Transaction_by_id db i) as [obj|] eqn:E; simpl;
      [|split; [split|]; reflexivity].
    unfold Transaction_by_id in E. apply find_some in E.
    destruct (existsb_find_account db (Transaction.account_number obj)
                (Hfk obj (proj1 E))) as (account & ->).
    simpl. split; [split|]; discriminate.
Qed.

Lemma http404_iff_missing_witness :
  urlpatterns 3 (transaction_delete_view "nonexistent") fixture_db
  = (Raise Http404, fixture_db).
Proof.
  destruct (http404_iff_missing 3 (transaction_delete_view "nonexistent")
              fixture_db fixture_db_reachable eq_refl)
    as [[_ Hraise] Hsame].
  rewrite (surjective_pairing (urlpatterns _ _ _)).
  rewrite (Hraise eq_refl), (Hsame eq_refl). reflexivity.
Defined.

(** ** X5: deleting an account *)

(** X5. On a reachable database, deleting a stored account answers 200,
    removes exactly that account's row and exactly the transactions that
    reference it (the cascade of the foreign key); every other account and
    transaction stays, and neither the number nor the key resolves any
    more. *)
Theorem delete_account_cascades (db : Db) (n : string) (acc : Account.t) :
  reachable db ->
  Account_by_number db n = Some acc ->
  exists k db',
    Account.pk acc = Some k
    /\ AccountDeleteView_post n db
       = (Ok (mkJsonResponse (MessageData "Object deleted successfully.") 200),
          db')
    /\ Account_by_number db' n = None
    /\ Account_by_pk db' k = None
    /\ (forall a, In a (accounts db') <-> In a (accounts db) /\ a <> acc)
    /\ (forall t, In t (transactions db') <->
                  In t (transactions db)
                  /\ Transaction.account_number t <> k).
Proof.
  intros Hr Hget. apply reachable_wf in Hr.
  pose proof Hget as Hfind. unfold Account_by_number in Hfind.
  apply find_some in Hfind. destruct Hfind as [Hin Hn].
  apply String.eqb_eq in Hn.
  destruct (keys_ok_In _ Account.pk _ _ _ acc (wf_account_keys Hr) Hin)
    as (k & Hk & _).
  exists k. eexists. split; [exact Hk|].
  unfold AccountDeleteView_post, bind, get_object_or_404.
  rewrite Hget. simpl. unfold Model_delete_Account. rewrite Hk. simpl.
  split; [reflexivity|].
  assert (Hleft : forall a, In a (filter (fun r => negb (Account.has_pk k r))
                                         (accounts db)) <->
                            In a (accounts db) /\ a <> acc).
  { intros a. rewrite filter_In. split; intros [Ha Hne]; split; trivial.
    - intros ->. apply Account_has_pk_iff in Hk. rewrite Hk in Hne.
      discriminate.
    - apply negb_true_iff. destruct (Account.has_pk k a) eqn:E; trivial.
      apply Account_has_pk_iff in E. exfalso. apply Hne.
      apply (keys_ok_inj _ Account.pk (accounts db) _ _ a acc
               (wf_account_keys Hr)); trivial. congruence. }
  split; [|split; [|split; [exact Hleft|]]].
  - unfold Account_by_number. simpl.
    destruct (find _ _) as [a|] eqn:E; trivial.
    apply find_some in E. destruct E as [Ha Han].
    apply String.eqb_eq in Han. apply Hleft in Ha. destruct Ha as [Ha Hne].
    exfalso. apply Hne.
    apply (NoDup_name_inj _ Account.account_number (accounts db) a acc
             (wf_account_number Hr)); trivial. congruence.
  - unfold Account_by_pk. simpl.
    destruct (find _ _) as [a|] eqn:E; trivial.
    apply find_some in E. destruct E as [Ha Hak].
    apply filter_In in Ha. destruct Ha as [_ Hne].
    rewrite Hak in Hne. discriminate.
  - intros t. simpl. rewrite filter_In, negb_true_iff, Nat.eqb_neq.
    reflexivity.
Qed.

Lemma delete_account_cascades_witness :
  exists k db',
    Some 1%nat = Some k
    /\ AccountDeleteView_post "1234567890" fixture_db
       = (Ok (mkJsonResponse (MessageData "Object deleted successfully.") 200),
          db')
    /\ Account_by_number db' "1234567890" = None
    /\ Account_by_pk db' k = None
    /\ (forall a, In a (accounts db') <->
                  In a (accounts fixture_db)
                  /\ a <> Account.mk (Some 1%nat) "1234567890" 1000 "Jhon Doe"
                                     "Savings" 1 2)
    /\ (forall t, In t (transactions db') <->
                  In t (transactions fixture_db)
                  /\ Transaction.account_number t <> k).
Proof.
  apply (delete_account_cascades fixture_db "1234567890"
           (Account.mk (Some 1%nat) "1234567890" 1000 "Jhon Doe"
                       "Savings" 1 2)).
  - exact fixture_db_reachable.
  - reflexivity.
Defined.

(** ** X6, X7: creating and updating an account *)

Lemma AccountForm_errors_nil (instance : option Account.t)
  (form : AccountForm.t) (db : Db) :
  AccountForm_errors instance form db = [] ->
  Account_number_taken db
    (Account.pk (AccountForm_instance instance form))
    (AccountForm.account_number form) = false
  /\ (instance = None -> 0 < AccountForm.balance form).
Proof.
  unfold AccountForm_errors. intros H.
  apply app_eq_nil in H. destruct H as [Hnum H].
  do 2 (apply app_eq_nil in H; destruct H as [_ H]).
  apply app_eq_nil in H. destruct H as [Hclean H].
  rewrite Hnum in H. simpl in H. split.
  - destruct (Account_number_taken db _ _); [discriminate | reflexivity].
  - intros ->. unfold Account_clean in Hclean. simpl in Hclean.
    destruct (Qle_bool (AccountForm.balance form) 0) eqn:E;
      [discriminate|].
    apply Qnot_le_lt. intros Hle. apply Qle_bool_iff in Hle. congruence.
Qed.

(** X6. On a reachable database, an account form without error is
    created: the view answers 201, appends one row that carries the
    submitted fields, the next key of the sequence and both dates set to
    the time of the request, and touches nothing else; the opening balance
    is positive, and the detail view then returns that row under the
    submitted number. *)
Theorem account_create_roundtrip (now : nat) (form : AccountForm.t) (db : Db) :
  reachable db ->
  AccountForm_errors None form db = [] ->
  let row := Account.mk (Some (account_seq db))
               (AccountForm.account_number form) (AccountForm.balance form)
               (AccountForm.customer_name form)
               (AccountForm.account_type form) now now in
  exists db',
    AccountCreateView_post now form db
    = (Ok (mkJsonResponse (AccountData row) 201), db')
    /\ accounts db' = accounts db ++ [row]
    /\ transactions db' = transactions db
    /\ 0 < AccountForm.balance form
    /\ AccountDetailView_get (AccountForm.account_number form) db'
       = (Ok (mkJsonResponse (AccountData row) 200), db').
Proof.
  intros Hr Herr row. apply reachable_wf in Hr.
  destruct (AccountForm_errors_nil None form db Herr) as [Hfree Hpos].
  specialize (Hpos eq_refl). simpl in Hfree.
  unfold AccountCreateView_post. rewrite Herr.
  unfold AccountCreateView_form_valid, bind, Account_save.
  assert (E : Qlt_bool (AccountForm.balance form) 0 = false)
    by (apply Qlt_bool_false; lra).
  simpl. rewrite E. unfold Model_save_Account. simpl. rewrite Hfree.
  eexists. split; [reflexivity|]. simpl.
  repeat split; trivial.
  unfold AccountDetailView_get, bind, get_object_or_404, Account_by_number.
  simpl. rewrite find_app_fresh; [reflexivity| |apply String.eqb_refl].
  intros y Hy. destruct (String.eqb (Account.account_number y) _) eqn:Ey;
    trivial.
  apply String.eqb_eq in Ey.
  pose proof (taken_false _ Account.pk Account.account_number _ _ _
                Hfree y Hy Ey) as Hnone.
  destruct (keys_ok_In _ Account.pk _ _ _ y (wf_account_keys Hr) Hy)
    as (k & Hk & _).
  congruence.
Qed.

Lemma account_create_roundtrip_witness :
  exists db',
    AccountCreateView_post 3 (AccountForm.mk "42" 10 "Ann" "Checking")
                           fixture_db
    = (Ok (mkJsonResponse
             (AccountData (Account.mk (Some 2%nat) "42" 10 "Ann" "Checking"
                                      3 3)) 201), db')
    /\ accounts db'
       = accounts fixture_db
         ++ [Account.mk (Some 2%nat) "42" 10 "Ann" "Checking" 3 3]
    /\ transactions db' = transactions fixture_db
    /\ 0 < 10
    /\ AccountDetailView_get "42" db'
       = (Ok (mkJsonResponse
                (AccountData (Account.mk (Some 2%nat) "42" 10 "Ann" "Checking"
                                         3 3)) 200), db').
Proof.
  apply (account_create_roundtrip 3 (AccountForm.mk "42" 10 "Ann" "Checking")
           fixture_db).
  - exact fixture_db_reachable.
  - reflexivity.
Defined.

(** X7. On a reachable database, updating a stored account with a form
    without error and a balance that is not negative answers 200 and
    replaces the row by the submitted fields: the key and the creation
    date are kept, [last_update] is re-stamped.  The balance is set to the
    submitted value directly, 0 included, with a single UPDATE of the
    account's row and no transaction written. *)
Theorem account_update_replaces_row (now pk : nat) (form : AccountForm.t)
  (db : Db) (instance : Account.t) :
  reachable db ->
  Account_by_pk db pk = Some instance ->
  AccountForm_errors (Some instance) form db = [] ->
  0 <= AccountForm.balance form ->
  let row := Account.mk (Some pk) (AccountForm.account_number form)
               (AccountForm.balance form) (AccountForm.customer_name form)
               (AccountForm.account_type form)
               (Account.account_creation instance) now in
  exists db',
    AccountUpdateView_post now pk form db
    = (Ok (mkJsonResponse (AccountData row) 200), db')
    /\ Account_by_pk db' pk = Some row
    /\ transactions db' = transactions db
    /\ journal db' = journal db ++ [mkWrite AccountTable UPDATE pk].
Proof.
  intros Hr Hget Herr Hb row.
  destruct (Account_by_pk_Some _ _ _ Hget) as (_ & Hpk & Hex).
  destruct (AccountForm_errors_nil (Some instance) form db Herr)
    as [Hfree _]. simpl in Hfree.
  unfold AccountUpdateView_post. rewrite Hget, Herr.
  unfold AccountUpdateView_form_valid, bind, Account_save.
  apply Qlt_bool_false in Hb. simpl. rewrite Hb.
  unfold Model_save_Account. simpl. rewrite Hfree, Hpk, Hex.
  eexists. split; [reflexivity|]. simpl. repeat split.
  unfold Account_by_pk. simpl. apply find_replace_account; trivial.
Qed.

Lemma account_update_replaces_row_witness :
  exists db',
    AccountUpdateView_post 3 1
      (AccountForm.mk "1234567890" 0 "Maria Gonzalez" "Savings") fixture_db
    = (Ok (mkJsonResponse
             (AccountData (Account.mk (Some 1%nat) "1234567890" 0
                             "Maria Gonzalez" "Savings" 1 3)) 200), db')
    /\ Account_by_pk db' 1
       = Some (Account.mk (Some 1%nat) "1234567890" 0 "Maria Gonzalez"
                          "Savings" 1 3)
    /\ transactions db' = transactions fixture_db
    /\ journal db' = journal fixture_db ++ [mkWrite AccountTable UPDATE 1].
Proof.
  apply (account_update_replaces_row 3 1
           (AccountForm.mk "1234567890" 0 "Maria Gonzalez" "Savings")
           fixture_db
           (Account.mk (Some 1%nat) "1234567890" 1000 "Jhon Doe"
                       "Savings" 1 2)).
  - exact fixture_db_reachable.
  - reflexivity.
  - reflexivity.
  - apply Qle_refl.
Defined.

(** ** X8 - X11: a transaction that is created *)

Lemma Model_save_Transaction_create (now : nat)
  (self saved : Transaction.t Account.t) (db db1 : Db) :
  Transaction.pk self = None ->
  Model_save_Transaction now self db = (Ok saved, db1) ->
  exists a,
    Account.pk (Transaction.account_number self) = Some a
    /\ saved = Transaction.inserted self (transaction_seq db) now
    /\ db1 = mkDb (accounts db)
                  (transactions db ++ [Transaction_row saved a])
                  (account_seq db) (S (transaction_seq db))
                  (journal db
                     ++ [mkWrite TransactionTable INSERT (transaction_seq db)]).
Proof.
  unfold Model_save_Transaction. intros Hpk H.
  destruct (Account.pk (Transaction.account_number self)) as [a|];
    [|discriminate].
  destruct (Transaction_id_taken db _ _ || _)%bool; [discriminate|].
  rewrite Hpk in H. inversion H; subst. exists a. auto.
Qed.

(** The whole effect of a creation that passes every check. *)
Lemma TransactionCreateView_committed (now : nat) (form : TransactionForm.t)
  (db : Db) (A : Account.t) :
  wf db ->
  TransactionForm_errors None form db = [] ->
  Account_by_pk db (TransactionForm.account_number form) = Some A ->
  0 <= TransactionForm.amount form ->
  (TransactionForm.transaction_type form = "Withdraw"%string ->
   TransactionForm.amount form <= Account.balance A) ->
  let self := TransactionForm_instance None form A in
  let A' := Account.updated (apply_transaction A self) now in
  let k := transaction_seq db in
  TransactionCreateView_post now form db
  = (Ok (mkJsonResponse
           (TransactionData
              (Transaction.set_account (Transaction.inserted self k now) A'))
           201),
     mkDb (replace_account (TransactionForm.account_number form) A'
                           (accounts db))
          (transactions db
             ++ [Transaction_row (Transaction.inserted self k now)
                                 (TransactionForm.account_number form)])
          (account_seq db) (S k)
          (journal db
             ++ [mkWrite TransactionTable INSERT k;
                 mkWrite AccountTable UPDATE
                         (TransactionForm.account_number form)])).
Proof.
  intros Hwf Herr Hacc Hamt Hfunds self A' k.
  destruct (Account_by_pk_Some _ _ _ Hacc) as (Hin & Hpk & Hex).
  assert (Eneg : Qlt_bool (Transaction.amount self) 0 = false)
    by (apply Qlt_bool_false; exact Hamt).
  assert (Efunds :
            (String.eqb (Transaction.transaction_type self) "Withdraw"
             && Qlt_bool (Account.balance (Transaction.account_number self))
                         (Transaction.amount self))%bool = false).
  { simpl. destruct (String.eqb _ "Withdraw") eqn:E; [|reflexivity].
    apply String.eqb_eq in E. simpl. apply Qlt_bool_false. auto. }
  destruct (Model_save_Transaction_succeeds now self db _ Hpk Hex
              (TransactionForm_errors_nil None form db Herr))
    as (saved & db1 & E1).
  destruct (Transaction_save_after_row now self saved db db1 _
              Hwf Hacc Eneg Efunds E1) as (obj & db' & Hsave).
  destruct (Transaction_save_Ok _ _ _ _ _ Hsave)
    as (saved' & db1' & a & E1' & Ha & -> & ->).
  rewrite E1 in E1'. injection E1' as <- <-.
  simpl in Ha. rewrite Hpk in Ha. injection Ha as <-.
  destruct (Model_save_Transaction_create now self saved db db1 eq_refl E1)
    as (a & Ha & -> & ->).
  simpl in Ha. rewrite Hpk in Ha. injection Ha as <-.
  unfold TransactionCreateView_post. rewrite Herr, Hacc.
  unfold TransactionCreateView_form_valid, bind. fold self.
  rewrite Hsave. simpl. rewrite <- app_assoc. reflexivity.
Qed.

Lemma Transaction_id_fresh (db : Db) (i : string) :
  wf db ->
  Transaction_id_taken db None i = false ->
  forall y, In y (transactions db) ->
            String.eqb (Transaction.transaction_id y) i = false.
Proof.
  intros Hwf Hfree y Hy.
  destruct (String.eqb (Transaction.transaction_id y) i) eqn:E; trivial.
  apply String.eqb_eq in E.
  pose proof (taken_false _ (@Transaction.pk nat)
                (@Transaction.transaction_id nat) _ _ _ Hfree y Hy E)
    as Hnone.
  destruct (keys_ok_In _ (@Transaction.pk nat) _ _ _ y
              (wf_transaction_keys Hwf) Hy) as (k & Hk & _).
  congruence.
Qed.

(** X8. On a reachable database, a transaction form without error, with
    an amount that is not negative and, for a Withdraw, not above the
    balance of its account, is created: the view answers 201, one row
    with the submitted fields, the next key and the time of the request is
    appended and is then found under its [transaction_id], and the row of
    the account is re-saved; where [update_balance] computes without
    rounding its balance has moved by the signed amount.  With C3 this is
    the exact condition under which a valid form is committed. *)
Theorem transaction_create_commits (now : nat) (form : TransactionForm.t)
  (db : Db) (A : Account.t) :
  reachable db ->
  TransactionForm_errors None form db = [] ->
  Account_by_pk db (TransactionForm.account_number form) = Some A ->
  0 <= TransactionForm.amount form ->
  (TransactionForm.transaction_type form = "Withdraw"%string ->
   TransactionForm.amount form <= Account.balance A) ->
  let row := Transaction.mk (Some (transaction_seq db))
               (TransactionForm.transaction_id form)
               (TransactionForm.account_number form)
               (TransactionForm.amount form)
               (TransactionForm.transaction_type form) now
               (TransactionForm.description form)
               (TransactionForm.status form) in
  exists response db' A',
    TransactionCreateView_post now form db = (Ok response, db')
    /\ status response = 201%nat
    /\ transactions db' = transactions db ++ [row]
    /\ Transaction_by_id db' (TransactionForm.transaction_id form) = Some row
    /\ Account_by_pk db' (TransactionForm.account_number form) = Some A'
    /\ Account.last_update A' = now
    /\ (exact_step (Account.balance A)
                   (TransactionForm.transaction_type form)
                   (TransactionForm.amount form) = true ->
        Account.balance A'
        == Account.balance A
           + signedEffect (TransactionForm.transaction_type form)
                          (TransactionForm.amount form)).
Proof.
  intros Hr Herr Hacc Hamt Hfunds row. apply reachable_wf in Hr.
  pose proof (TransactionCreateView_committed now form db A Hr Herr Hacc
                Hamt Hfunds) as Hpost. simpl in Hpost.
  destruct (Account_by_pk_Some _ _ _ Hacc) as (_ & Hpk & Hex).
  do 3 eexists. split; [exact Hpost|]. simpl.
  split; [reflexivity|]. split; [reflexivity|]. split; [|split; [|split]].
  - unfold Transaction_by_id. simpl. apply find_app_fresh.
    + apply Transaction_id_fresh; trivial.
      exact (TransactionForm_errors_nil None form db Herr).
    + apply String.eqb_refl.
  - unfold Account_by_pk. simpl. apply find_replace_account; trivial.
    simpl. rewrite apply_transaction_pk. exact Hpk.
  - reflexivity.
  - intros _. simpl.
    exact (apply_transaction_balance A (TransactionForm_instance None form A)).
Qed.

Lemma transaction_create_commits_witness :
  exists response db' A',
    TransactionCreateView_post 3
      (TransactionForm.mk "w1" 1 300 "Withdraw" "ATM" "Success") fixture_db
    = (Ok response, db')
    /\ status response = 201%nat
    /\ transactions db'
       = transactions fixture_db
         ++ [Transaction.mk (Some 2%nat) "w1" 1%nat 300 "Withdraw" 3 "ATM"
                            "Success"]
    /\ Transaction_by_id db' "w1"
       = Some (Transaction.mk (Some 2%nat) "w1" 1%nat 300 "Withdraw" 3 "ATM"
                              "Success")
    /\ Account_by_pk db' 1 = Some A'
    /\ Account.last_update A' = 3%nat
    /\ Account.balance A' == 1000 + signedEffect "Withdraw" 300.
Proof.
  destruct (transaction_create_commits 3
              (TransactionForm.mk "w1" 1 300 "Withdraw" "ATM" "Success")
              fixture_db
              (Account.mk (Some 1%nat) "1234567890" 1000 "Jhon Doe"
                          "Savings" 1 2))
    as (response & db' & A' & H1 & H2 & H3 & H4 & H5 & H6 & H7).
  - exact fixture_db_reachable.
  - reflexivity.
  - reflexivity.
  - simpl. discriminate.
  - intros _. simpl. discriminate.
  - exists response, db', A'. repeat split; trivial.
    apply H7. reflexivity.
Defined.

(** X9. A negative amount is not a form error: a form that validates
    reaches [Transaction.save], which raises [ValueError] "Amount cannot
    be negative" before the funds check and before any write, for a
    creation and for an update, whatever the type. *)
Theorem negative_amount_raises (now : nat) (db : Db) :
  (forall form A,
      TransactionForm_errors None form db = [] ->
      Account_by_pk db (TransactionForm.account_number form) = Some A ->
      TransactionForm.amount form < 0 ->
      TransactionCreateView_post now form db
      = (Raise (ValueError "Amount cannot be negative"), db))
  /\ (forall pk form instance A,
        Transaction_by_pk db pk = Some instance ->
        TransactionForm_errors (Some instance) form db = [] ->
        Account_by_pk db (TransactionForm.account_number form) = Some A ->
        TransactionForm.amount form < 0 ->
        TransactionUpdateView_post now pk form db
        = (Raise (ValueError "Amount cannot be negative"), db)).
Proof.
  split.
  - intros form A Herr Hacc Hneg. apply Qlt_bool_true in Hneg.
    unfold TransactionCreateView_post. rewrite Herr, Hacc.
    unfold TransactionCreateView_form_valid, bind, Transaction_save.
    simpl. rewrite Hneg. reflexivity.
  - intros pk form instance A Hrow Herr Hacc Hneg.
    apply Qlt_bool_true in Hneg.
    unfold TransactionUpdateView_post. rewrite Hrow, Herr, Hacc.
    unfold TransactionUpdateView_form_valid, bind, Transaction_save.
    simpl. rewrite Hneg. reflexivity.
Qed.

Lemma negative_amount_raises_witness :
  TransactionCreateView_post 3
    (TransactionForm.mk "n1" 1 (-5) "Withdraw" "ATM" "Success") fixture_db
  = (Raise (ValueError "Amount cannot be negative"), fixture_db)
  /\ TransactionUpdateView_post 3 1
       (TransactionForm.mk "abcdefghijk" 1 (-5) "Deposit" "d" "Success")
       fixture_db
     = (Raise (ValueError "Amount cannot be negative"), fixture_db).
Proof.
  destruct (negative_amount_raises 3 fixture_db) as [Hcreate Hupdate].
  split.
  - apply (Hcreate (TransactionForm.mk "n1" 1 (-5) "Withdraw" "ATM" "Success")
                   (Account.mk (Some 1%nat) "1234567890" 1000 "Jhon Doe"
                               "Savings" 1 2)); reflexivity.
  - apply (Hupdate 1%nat
             (TransactionForm.mk "abcdefghijk" 1 (-5) "Deposit" "d" "Success")
             (Transaction.mk (Some 1%nat) "abcdefghijk" 1%nat 500 "Deposit" 2
                             "Initial Deposit" "Sucess")
             (Account.mk (Some 1%nat) "1234567890" 1000 "Jhon Doe"
                         "Savings" 1 2)); reflexivity.
Defined.

Lemma find_replace_account_other (k a : nat) (row : Account.t)
  (l : list Account.t) :
  k <> a -> Account.pk row = Some a ->
  find (Account.has_pk k) (replace_account a row l)
  = find (Account.has_pk k) l.
Proof.
  intros Hne Hrow. induction l as [|x l IH]; simpl; [reflexivity|].
  rewrite IH. destruct (Account.has_pk a x) eqn:E; [|reflexivity].
  apply Account_has_pk_iff in E. unfold Account.has_pk.
  rewrite Hrow, E.
  destruct (Nat.eqb_spec a k) as [->|_]; [contradiction | reflexivity].
Qed.

(** X10. A request that creates or updates a transaction changes no
    account but the one its form names, on any database and whether it
    succeeds or not.  In particular an update that moves a transaction to
    another account leaves the row of the account it referenced before as
    it was. *)
Theorem ledger_write_frame (now : nat) (request : Request) (db : Db)
  (a k : nat) :
  ledger_account request = Some a ->
  k <> a ->
  Account_by_pk (snd (urlpatterns now request db)) k = Account_by_pk db k.
Proof.
  intros Hled Hne.
  assert (Hsave : forall self,
             Account.pk (Transaction.account_number self) = Some a ->
             Account_by_pk (snd (Transaction_save now self db)) k
             = Account_by_pk db k).
  { intros self Hpk.
    destruct (Transaction_save now self db) as [[obj|e] db'] eqn:E; simpl.
    - destruct (Transaction_save_Ok _ _ _ _ _ E)
        as (saved & db1 & a' & _ & Ha & _ & ->).
      rewrite Hpk in Ha. injection Ha as <-.
      unfold Account_by_pk. simpl.
      apply find_replace_account_other; trivial.
      simpl. rewrite apply_transaction_pk. exact Hpk.
    - destruct (Transaction_save_Raise _ _ _ _ _ E) as [Hacc _].
      unfold Account_by_pk. rewrite Hacc. reflexivity. }
  destruct request as [?|? ?|?|?|form|pk form|?|?]; try discriminate Hled;
    simpl in Hled; injection Hled as <-; simpl.
  - unfold TransactionCreateView_post.
    destruct (TransactionForm_errors None form db); [|reflexivity].
    destruct (Account_by_pk db (TransactionForm.account_number form))
      as [account|] eqn:Hacc; [|reflexivity].
    unfold TransactionCreateView_form_valid. rewrite bind_ret_db.
    apply Hsave. simpl. apply (Account_by_pk_Some _ _ _ Hacc).
  - unfold TransactionUpdateView_post.
    destruct (Transaction_by_pk db pk) as [instance|]; [|reflexivity].
    destruct (TransactionForm_errors (Some instance) form db);
      [|reflexivity].
    destruct (Account_by_pk db (TransactionForm.account_number form))
      as [account|] eqn:Hacc; [|reflexivity].
    unfold TransactionUpdateView_form_valid. rewrite bind_ret_db.
    apply Hsave. simpl. apply (Account_by_pk_Some _ _ _ Hacc).
Qed.

Lemma ledger_write_frame_witness :
  Account_by_pk
    (snd (urlpatterns 4
            (transaction_update_view 1
               (TransactionForm.mk "abcdefghijk" 2 700 "Deposit" "moved"
                                   "Success"))
            (serve [(3%nat, account_create_view
                              (AccountForm.mk "42" 10 "Ann" "Checking"))]
                   fixture_db))) 1
  = Some (Account.mk (Some 1%nat) "1234567890" 1000 "Jhon Doe" "Savings" 1 2).
Proof.
  rewrite (ledger_write_frame 4
             (transaction_update_view 1
                (TransactionForm.mk "abcdefghijk" 2 700 "Deposit" "moved"
                                    "Success"))
             (serve [(3%nat, account_create_view
                               (AccountForm.mk "42" 10 "Ann" "Checking"))]
                    fixture_db)
             2 1 eq_refl).
  - reflexivity.
  - discriminate.
Defined.

(** X11. Creating a transaction and then deleting it is not a round trip:
    on a reachable database, after a creation that passes every check and
    the deletion of the created transaction, the transactions table is
    what it was before the creation, while the account keeps the row the
    creation saved: the deletion leaves it as it is, and where
    [update_balance] computes without rounding it carries the signed
    amount. *)
Theorem create_then_delete_keeps_effect (now : nat)
  (form : TransactionForm.t) (db : Db) (A : Account.t) :
  reachable db ->
  TransactionForm_errors None form db = [] ->
  Account_by_pk db (TransactionForm.account_number form) = Some A ->
  0 <= TransactionForm.amount form ->
  (TransactionForm.transaction_type form = "Withdraw"%string ->
   TransactionForm.amount form <= Account.balance A) ->
  let created := snd (TransactionCreateView_post now form db) in
  let out := TransactionDeleteView_post
               (TransactionForm.transaction_id form) created in
  succeeded (fst out) = true
  /\ transactions (snd out) = transactions db
  /\ accounts (snd out) = accounts created
  /\ exists A',
       Account_by_pk (snd out) (TransactionForm.account_number form)
       = Some A'
       /\ Account.last_update A' = now
       /\ (exact_step (Account.balance A)
                      (TransactionForm.transaction_type form)
                      (TransactionForm.amount form) = true ->
           Account.balance A'
           == Account.balance A
              + signedEffect (TransactionForm.transaction_type form)
                             (TransactionForm.amount form)).
Proof.
  intros Hr Herr Hacc Hamt Hfunds created out. apply reachable_wf in Hr.
  pose proof (TransactionCreateView_committed now form db A Hr Herr Hacc
                Hamt Hfunds) as Hpost. simpl in Hpost.
  destruct (Account_by_pk_Some _ _ _ Hacc) as (_ & Hpk & Hex).
  set (row := Transaction_row
                (Transaction.inserted (TransactionForm_instance None form A)
                                      (transaction_seq db) now)
                (TransactionForm.account_number form)) in *.
  assert (Hacc' : accounts created
                  = replace_account (TransactionForm.account_number form)
                      (Account.updated
                         (apply_transaction A
                            (TransactionForm_instance None form A)) now)
                      (accounts db))
    by (unfold created; rewrite Hpost; reflexivity).
  assert (Htx : transactions created = transactions db ++ [row])
    by (unfold created; rewrite Hpost; reflexivity).
  assert (Hget : Transaction_by_id created
                   (TransactionForm.transaction_id form) = Some row).
  { unfold Transaction_by_id. rewrite Htx. apply find_app_fresh.
    - apply Transaction_id_fresh; trivial.
      exact (TransactionForm_errors_nil None form db Herr).
    - apply String.eqb_refl. }
  assert (Hout : out
                 = (Ok (mkJsonResponse
                          (MessageData "Object deleted successfully.") 200),
                    mkDb (accounts created)
                         (filter (fun r => negb (Transaction.has_pk
                                                   (transaction_seq db) r))
                                 (transactions created))
                         (account_seq created) (transaction_seq created)
                         (journal created
                            ++ [mkWrite TransactionTable DELETE
                                        (transaction_seq db)]))).
  { unfold out, TransactionDeleteView_post, bind, get_object_or_404.
    rewrite Hget. reflexivity. }
  rewrite Hout. simpl. split; [reflexivity|]. split.
  - assert (Hrow : Transaction.has_pk (transaction_seq db) row = true)
      by (apply Transaction_has_pk_iff; reflexivity).
    rewrite Htx, filter_app. cbn [filter]. rewrite Hrow. cbn [negb].
    rewrite app_nil_r.
    apply filter_all. intros y Hy. apply negb_true_iff.
    destruct (Transaction.has_pk (transaction_seq db) y) eqn:E; trivial.
    apply Transaction_has_pk_iff in E.
    destruct (keys_ok_In _ (@Transaction.pk nat) _ _ _ y
                (wf_transaction_keys Hr) Hy) as (ky & Hky & _ & Hlt).
    rewrite E in Hky. injection Hky as <-. lia.
  - split; [reflexivity|]. eexists. split; [|split].
    + unfold Account_by_pk. simpl. rewrite Hacc'.
      apply find_replace_account; trivial.
      simpl. rewrite apply_transaction_pk. exact Hpk.
    + reflexivity.
    + intros _. simpl.
      exact (apply_transaction_balance A
               (TransactionForm_instance None form A)).
Qed.

Lemma create_then_delete_keeps_effect_witness :
  let created :=
    snd (TransactionCreateView_post 3
           (TransactionForm.mk "d2" 1 100 "Deposit" "pay" "Success")
           fixture_db) in
  let out := TransactionDeleteView_post "d2" created in
  succeeded (fst out) = true
  /\ transactions (snd out) = transactions fixture_db
  /\ exists A',
       Account_by_pk (snd out) 1 = Some A'
       /\ Account.balance A' == 1000 + signedEffect "Deposit" 100.
Proof.
  destruct (create_then_delete_keeps_effect 3
              (TransactionForm.mk "d2" 1 100 "Deposit" "pay" "Success")
              fixture_db
              (Account.mk (Some 1%nat) "1234567890" 1000 "Jhon Doe"
                          "Savings" 1 2))
    as (H1 & H2 & _ & A' & H3 & _ & H4).
  - exact fixture_db_reachable.
  - reflexivity.
  - reflexivity.
  - simpl. discriminate.
  - intros H. discriminate H.
  - split; [exact H1|]. split; [exact H2|].
    exists A'. split; [exact H3 | apply H4; reflexivity].
Defined.

(** ** X12, X13: [Transaction.save] called on a model instance *)

(** X12. [Transaction.save] works on the account object the instance
    holds.  When it returns, the row stored for that account is the held
    object written back, whatever the row held before: key, number, name,
    type and creation date are the held object's, [last_update] is
    re-stamped, and the returned instance holds that same object.  Its
    balance is computed from the held balance, not from the stored one:
    held balance + signedEffect where [update_balance] computes without
    rounding. *)
Theorem save_writes_back_held_account (now : nat)
  (self obj : Transaction.t Account.t) (db db' : Db) (a : nat) :
  Transaction_save now self db = (Ok obj, db') ->
  Account.pk (Transaction.account_number self) = Some a ->
  let held := Transaction.account_number self in
  exists stored,
    Account_by_pk db' a = Some stored
    /\ Transaction.account_number obj = stored
    /\ Account.pk stored = Some a
    /\ Account.account_number stored = Account.account_number held
    /\ Account.customer_name stored = Account.customer_name held
    /\ Account.account_type stored = Account.account_type held
    /\ Account.account_creation stored = Account.account_creation held
    /\ Account.last_update stored = now
    /\ (exact_step (Account.balance held)
                   (Transaction.transaction_type self)
                   (Transaction.amount self) = true ->
        Account.balance stored
        == Account.balance held
           + signedEffect (Transaction.transaction_type self)
                          (Transaction.amount self)).
Proof.
  intros Hsave Hpk held.
  destruct (Transaction_save_Ok _ _ _ _ _ Hsave)
    as (saved & db1 & a' & E1 & Ha & -> & ->).
  rewrite Hpk in Ha. injection Ha as <-.
  destruct (Model_save_Transaction_Ok _ _ _ _ _ E1)
    as (_ & _ & _ & a' & Ha & Hex).
  rewrite Hpk in Ha. injection Ha as <-.
  exists (Account.updated (apply_transaction held self) now).
  assert (Hfields :
            Account.account_number (apply_transaction held self)
            = Account.account_number held
            /\ Account.customer_name (apply_transaction held self)
               = Account.customer_name held
            /\ Account.account_type (apply_transaction held self)
               = Account.account_type held
            /\ Account.account_creation (apply_transaction held self)
               = Account.account_creation held).
  { unfold apply_transaction.
    destruct (String.eqb _ "Deposit"); [repeat split|].
    destruct (String.eqb _ "Withdraw"); repeat split. }
  destruct Hfields as (Hn & Hc & Ht & Hd).
  split; [|split; [reflexivity|]].
  - unfold Account_by_pk. simpl. apply find_replace_account; trivial.
    simpl. rewrite apply_transaction_pk. exact Hpk.
  - simpl. rewrite apply_transaction_pk.
    split; [exact Hpk|]. split; [exact Hn|]. split; [exact Hc|].
    split; [exact Ht|]. split; [exact Hd|]. split; [reflexivity|].
    intros _. exact (apply_transaction_balance held self).
Qed.

Lemma save_writes_back_held_account_witness :
  let stale := Account.mk (Some 1%nat) "1234567890" 500 "Jhon Doe"
                          "Savings" 1 1 in
  let self := Transaction.mk None "d2" stale 100 "Deposit" 0 "pay" "Success" in
  option_map Account.balance (Account_by_pk fixture_db 1) = Some 1000
  /\ exists stored,
       Account_by_pk (snd (Transaction_save 3 self fixture_db)) 1 = Some stored
       /\ Account.balance stored == 500 + signedEffect "Deposit" 100.
Proof.
  split; [reflexivity|].
  destruct (save_writes_back_held_account 3
              (Transaction.mk None "d2"
                 (Account.mk (Some 1%nat) "1234567890" 500 "Jhon Doe"
                             "Savings" 1 1)
                 100 "Deposit" 0 "pay" "Success")
              (Transaction.mk (Some 2%nat) "d2"
                 (Account.mk (Some 1%nat) "1234567890" (500 + 100) "Jhon Doe"
                             "Savings" 1 3)
                 100 "Deposit" 3 "pay" "Success")
              fixture_db
              (snd (Transaction_save 3
                      (Transaction.mk None "d2"
                         (Account.mk (Some 1%nat) "1234567890" 500 "Jhon Doe"
                                     "Savings" 1 1)
                         100 "Deposit" 0 "pay" "Success")
                      fixture_db))
              1 eq_refl eq_refl)
    as (stored & Hrow & _ & _ & _ & _ & _ & _ & _ & Hbal).
  exists stored. split; [exact Hrow | apply Hbal; reflexivity].
Defined.

(** X13. [update_balance] has no branch for a type other than 'Deposit'
    and 'Withdraw': on a reachable database, saving a new transaction of
    such a type (as tests.py does with 'deposit') on a stored account
    stores the transaction row and re-saves the account with its balance
    exactly as it was, only [last_update] re-stamped. *)
Theorem unknown_type_keeps_balance (now : nat)
  (self : Transaction.t Account.t) (db : Db) (a : nat) :
  reachable db ->
  Account_by_pk db a = Some (Transaction.account_number self) ->
  Transaction.pk self = None ->
  Transaction_id_taken db None (Transaction.transaction_id self) = false ->
  0 <= Transaction.amount self ->
  Transaction.transaction_type self <> "Deposit"%string ->
  Transaction.transaction_type self <> "Withdraw"%string ->
  exists obj db',
    Transaction_save now self db = (Ok obj, db')
    /\ transactions db'
       = transactions db
         ++ [Transaction_row
               (Transaction.inserted self (transaction_seq db) now) a]
    /\ Account_by_pk db' a
       = Some (Account.updated (Transaction.account_number self) now).
Proof.
  intros Hr Hacc Hnew Hfree Hamt Hdep Hwd. apply reachable_wf in Hr.
  destruct (Account_by_pk_Some _ _ _ Hacc) as (_ & Hpk & Hex).
  apply String.eqb_neq in Hdep, Hwd.
  assert (Eneg : Qlt_bool (Transaction.amount self) 0 = false)
    by (apply Qlt_bool_false; exact Hamt).
  assert (Efunds :
            (String.eqb (Transaction.transaction_type self) "Withdraw"
             && Qlt_bool (Account.balance (Transaction.account_number self))
                         (Transaction.amount self))%bool = false)
    by (rewrite Hwd; reflexivity).
  assert (Hfree' : Transaction_id_taken db (Transaction.pk self)
                     (Transaction.transaction_id self) = false)
    by (rewrite Hnew; exact Hfree).
  destruct (Model_save_Transaction_succeeds now self db _ Hpk Hex Hfree')
    as (saved & db1 & E1).
  destruct (Transaction_save_after_row now self saved db db1 _
              Hr Hacc Eneg Efunds E1) as (obj & db' & Hsave).
  exists obj, db'. split; [exact Hsave|].
  destruct (Transaction_save_Ok _ _ _ _ _ Hsave)
    as (saved' & db1' & a' & E1' & Ha & _ & ->).
  rewrite E1 in E1'. injection E1' as <- <-.
  rewrite Hpk in Ha. injection Ha as <-.
  destruct (Model_save_Transaction_create now self saved db db1 Hnew E1)
    as (a' & Ha & -> & ->).
  rewrite Hpk in Ha. injection Ha as <-.
  simpl. split; [reflexivity|].
  unfold Account_by_pk. simpl.
  assert (Happly : apply_transaction (Transaction.account_number self) self
                   = Transaction.account_number self)
    by (unfold apply_transaction; rewrite Hdep, Hwd; reflexivity).
  rewrite Happly. apply find_replace_account; trivial.
Qed.

Lemma unknown_type_keeps_balance_witness :
  let held := Account.mk (Some 1%nat) "1234567890" 1000 "Jhon Doe"
                         "Savings" 1 2 in
  let self := Transaction.mk None "x1" held 500 "deposit" 0 "" "" in
  exists obj db',
    Transaction_save 3 self fixture_db = (Ok obj, db')
    /\ transactions db'
       = transactions fixture_db
         ++ [Transaction_row (Transaction.inserted self 2 3) 1]
    /\ Account_by_pk db' 1 = Some (Account.updated held 3).
Proof.
  apply (unknown_type_keeps_balance 3
           (Transaction.mk None "x1"
              (Account.mk (Some 1%nat) "1234567890" 1000 "Jhon Doe"
                          "Savings" 1 2)
              500 "deposit" 0 "" "")
           fixture_db 1).
  - exact fixture_db_reachable.
  - reflexivity.
  - reflexivity.
  - reflexivity.
  - simpl. discriminate.
  - discriminate.
  - discriminate.
Defined.

(** ** X14: updating a transaction twice *)

Lemma update_step (now pk : nat) (form : TransactionForm.t) (db db' : Db)
  (r : result JsonResponse) (A : Account.t) :
  TransactionUpdateView_post now pk form db = (r, db') ->
  succeeded r = true ->
  Account_by_pk db (TransactionForm.account_number form) = Some A ->
  exists A',
    Account_by_pk db' (TransactionForm.account_number form) = Some A'
    /\ Account.balance A'
       == Account.balance A
          + signedEffect (TransactionForm.transaction_type form)
                         (TransactionForm.amount form).
Proof.
  intros Hpost Hok Hacc. unfold TransactionUpdateView_post in Hpost.
  destruct (Transaction_by_pk db pk) as [instance|];
    [|inversion Hpost; subst; discriminate Hok].
  rewrite Hacc in Hpost.
  destruct (TransactionForm_errors (Some instance) form db) as [|e errors].
  2:{ inversion Hpost; subst. discriminate Hok. }
  unfold TransactionUpdateView_form_valid, bind in Hpost.
  destruct (Transaction_save now _ db) as [[object|e] db2] eqn:Hsave;
    inversion Hpost; subst; [|discriminate Hok].
  exact (Transaction_save_balance _ _ _ _ _ _ Hsave Hacc).
Qed.

(** X14. Updating a transaction is not idempotent: when the same form is
    posted twice to the update view and both posts succeed, the effect of
    the form is applied to the balance of the account it names twice;
    where neither application rounds, the balance has moved by twice the
    signed amount. *)
Theorem update_twice_applies_twice (now1 now2 pk : nat)
  (form : TransactionForm.t) (db db1 db2 : Db) (r1 r2 : result JsonResponse)
  (A : Account.t) :
  Account_by_pk db (TransactionForm.account_number form) = Some A ->
  TransactionUpdateView_post now1 pk form db = (r1, db1) ->
  succeeded r1 = true ->
  TransactionUpdateView_post now2 pk form db1 = (r2, db2) ->
  succeeded r2 = true ->
  exact_step (Account.balance A) (TransactionForm.transaction_type form)
             (TransactionForm.amount form) = true ->
  exact_step (Account.balance A
              + signedEffect (TransactionForm.transaction_type form)
                             (TransactionForm.amount form))
             (TransactionForm.transaction_type form)
             (TransactionForm.amount form) = true ->
  exists A2,
    Account_by_pk db2 (TransactionForm.account_number form) = Some A2
    /\ Account.balance A2
       == Account.balance A
          + 2 * signedEffect (TransactionForm.transaction_type form)
                             (TransactionForm.amount form).
Proof.
  intros Hacc H1 Hok1 H2 Hok2 _ _.
  destruct (update_step _ _ _ _ _ _ _ H1 Hok1 Hacc) as (A1 & Hacc1 & Hb1).
  destruct (update_step _ _ _ _ _ _ _ H2 Hok2 Hacc1) as (A2 & Hacc2 & Hb2).
  exists A2. split; [exact Hacc2|]. rewrite Hb2, Hb1. ring.
Qed.

Lemma update_twice_applies_twice_witness :
  exists A2,
    Account_by_pk
      (serve [(3%nat, transaction_update_view 1 fixture_update);
              (4%nat, transaction_update_view 1 fixture_update)]
             fixture_db) 1 = Some A2
    /\ Account.balance A2 == 1000 + 2 * signedEffect "Deposit" 1200.
Proof.
  apply (update_twice_applies_twice 3 4 1 fixture_update fixture_db
           (snd (TransactionUpdateView_post 3 1 fixture_update fixture_db))
           (serve [(3%nat, transaction_update_view 1 fixture_update);
                   (4%nat, transaction_update_view 1 fixture_update)]
                  fixture_db)
           (fst (TransactionUpdateView_post 3 1 fixture_update fixture_db))
           (fst (TransactionUpdateView_post 4 1 fixture_update
                   (snd (TransactionUpdateView_post 3 1 fixture_update
                           fixture_db))))
           (Account.mk (Some 1%nat) "1234567890" 1000 "Jhon Doe"
                       "Savings" 1 2)).
  - reflexivity.
  - reflexivity.
  - reflexivity.
  - reflexivity.
  - reflexivity.
  - reflexivity.
  - reflexivity.
Defined.

(** ** X15: the unique columns at creation *)

(** X15. On a reachable database, posting an account creation under a
    number that is stored writes nothing and is never answered 201.  With
    a balance that parses the view answers 400, and the errors name the
    number as not unique when it passes its field checks; with a balance
    that is missing or not a number, [Account.clean] raises [TypeError]
    during validation.  A transaction form (its amount parsed) under a
    stored transaction id is answered 400 in the same way. *)
Theorem duplicates_rejected (now : nat) (db : Db) :
  reachable db ->
  (forall post acc,
      Account_by_number db (AccountPost.account_number post) = Some acc ->
      snd (AccountCreateView_post_data now post db) = db
      /\ match AccountPost.balance post with
         | Some _ =>
             exists e errors,
               fst (AccountCreateView_post_data now post db)
               = Ok (mkJsonResponse (ErrorsData (e :: errors)) 400)
               /\ (CharField_errors "account_number"
                                    (AccountPost.account_number post) = [] ->
                   In (NotUnique "account_number") (e :: errors))
         | None =>
             fst (AccountCreateView_post_data now post db)
             = Raise (TypeError
                        "'<=' not supported between instances of 'NoneType' and 'int'")
         end)
  /\ (forall form t,
        Transaction_by_id db (TransactionForm.transaction_id form) = Some t ->
        exists e errors,
          TransactionCreateView_post now form db
          = (Ok (mkJsonResponse (ErrorsData (e :: errors)) 400), db)
          /\ (CharField_errors "transaction_id"
                               (TransactionForm.transaction_id form) = [] ->
              In (NotUnique "transaction_id") (e :: errors))).
Proof.
  intros Hr. apply reachable_wf in Hr. split.
  - intros post acc Hget. unfold AccountCreateView_post_data.
    destruct (AccountPost.balance post) as [balance|];
      [|split; reflexivity].
    set (form := AccountForm.mk (AccountPost.account_number post) balance
                   (AccountPost.customer_name post)
                   (AccountPost.account_type post)).
    unfold Account_by_number in Hget. apply find_some in Hget.
    destruct Hget as [Hin Hn].
    destruct (keys_ok_In _ Account.pk _ _ _ acc (wf_account_keys Hr) Hin)
      as (k & Hk & _).
    assert (Htaken : Account_number_taken db None
                       (AccountForm.account_number form) = true).
    { unfold Account_number_taken. apply existsb_exists. exists acc.
      split; [exact Hin|]. simpl. rewrite Hn, Hk. reflexivity. }
    assert (Herr : (CharField_errors "account_number"
                      (AccountForm.account_number form) = [] ->
                    In (NotUnique "account_number")
                       (AccountForm_errors None form db))
                   /\ AccountForm_errors None form db <> []).
    { unfold AccountForm_errors. simpl AccountForm_instance.
      simpl Account.pk. rewrite Htaken.
      destruct (CharField_errors "account_number" _) as [|e0 l0].
      - split.
        + intros _. simpl. do 3 (apply in_or_app; right). simpl. auto.
        + simpl. intros H. do 2 (apply app_eq_nil in H; destruct H as [_ H]).
          apply app_eq_nil in H. destruct H as [_ H]. discriminate H.
      - split; [discriminate | discriminate]. }
    destruct Herr as [Hnot Hne].
    unfold AccountCreateView_post.
    destruct (AccountForm_errors None form db) as [|e errors];
      [contradiction|].
    split; [reflexivity|]. exists e, errors. split; [reflexivity | exact Hnot].
  - intros form t Hget.
    unfold Transaction_by_id in Hget. apply find_some in Hget.
    destruct Hget as [Hin Hn].
    destruct (keys_ok_In _ (@Transaction.pk nat) _ _ _ t
                (wf_transaction_keys Hr) Hin) as (k & Hk & _).
    assert (Htaken : Transaction_id_taken db None
                       (TransactionForm.transaction_id form) = true).
    { unfold Transaction_id_taken. apply existsb_exists. exists t.
      split; [exact Hin|]. rewrite Hn, Hk. reflexivity. }
    assert (Herr : (CharField_errors "transaction_id"
                      (TransactionForm.transaction_id form) = [] ->
                    In (NotUnique "transaction_id")
                       (TransactionForm_errors None form db))
                   /\ TransactionForm_errors None form db <> []).
    { unfold TransactionForm_errors. rewrite Htaken.
      destruct (CharField_errors "transaction_id" _) as [|e0 l0].
      - split.
        + intros _. simpl. do 4 (apply in_or_app; right). simpl. auto.
        + simpl. intros H. do 3 (apply app_eq_nil in H; destruct H as [_ H]).
          apply app_eq_nil in H. destruct H as [_ H]. discriminate H.
      - split; [discriminate | discriminate]. }
    destruct Herr as [Hnot Hne].
    unfold TransactionCreateView_post.
    destruct (TransactionForm_errors None form db) as [|e errors];
      [contradiction|].
    exists e, errors. split; [reflexivity | exact Hnot].
Qed.

Lemma duplicates_rejected_witness :
  (exists e errors,
     AccountCreateView_post_data 3
       (AccountPost.mk "1234567890" (Some 1000) "jhon doe" "Savings")
       fixture_db
     = (Ok (mkJsonResponse (ErrorsData (e :: errors)) 400), fixture_db)
     /\ In (NotUnique "account_number") (e :: errors))
  /\ AccountCreateView_post_data 3
       (AccountPost.mk "1234567890" None "jhon doe" "Savings") fixture_db
     = (Raise (TypeError
                 "'<=' not supported between instances of 'NoneType' and 'int'"),
        fixture_db).
Proof.
  pose proof (proj1 (duplicates_rejected 3 fixture_db fixture_db_reachable))
    as H.
  split.
  - destruct (H (AccountPost.mk "1234567890" (Some 1000) "jhon doe" "Savings")
                (Account.mk (Some 1%nat) "1234567890" 1000 "Jhon Doe"
                            "Savings" 1 2) eq_refl)
      as (Hdb & e & errors & Hres & Hin).
    exists e, errors. split; [|apply Hin; reflexivity].
    rewrite (surjective_pairing (AccountCreateView_post_data _ _ _)).
    rewrite Hres, Hdb. reflexivity.
  - destruct (H (AccountPost.mk "1234567890" None "jhon doe" "Savings")
                (Account.mk (Some 1%nat) "1234567890" 1000 "Jhon Doe"
                            "Savings" 1 2) eq_refl)
      as (Hdb & Hres).
    rewrite (surjective_pairing (AccountCreateView_post_data _ _ _)).
    rewrite Hres, Hdb. reflexivity.
Defined.
